(** * The host (OCI) builder of kn-plugin-func: build coordination,
      containerization and push

    A shallow embedding of [pkg/oci/builder.go], [pkg/oci/containerize.go]
    and the OCI pusher, with the properties of the build lifecycle proved
    over it.

    Conventions of the embedding.
    - Go's [int] and [int64] are [Z]; strings are [string].
    - A Go [error] is a value of the inductive type [error]; the nil error
      is [None].
    - The part of the disk the builder works on, the directory
      [<root>/.func/builds] and the working directory, is the record
      [World], threaded explicitly through every operation.
    - The filesystem is ideal: an operation fails only for the structural
      reasons the model tracks (a name that already exists, a name that is
      absent).  Permission and device errors are outside the model.
    - Console output made under [verbose] is not modelled. *)

From Stdlib Require Import ZArith String Ascii List Lia.
From Stdlib Require Import Decimal DecimalString DecimalPos DecimalZ.
From stdpp Require Import base option list gmap sets strings fin_maps.

Local Open Scope Z_scope.
Local Open Scope string_scope.
Set Warnings "-register-all,-clear-no-such-hyp".

(** ** Errors *)

Inductive Errno := EEXIST | ENOENT.

(** The error values that occur in the package.  [errorString] is what
    [errors.New] and [fmt.Errorf] return, [LinkError] is [*os.LinkError],
    [BuildErr] is the package's own type, and [Foreign] stands for an error
    handed back by a collaborator (the fingerprint, the scaffolding writer,
    the Go toolchain, the registry client). *)
Inductive error :=
| errorString (s : string)
| BuildErr (Err : error)
| LinkError (Op Old New : string) (Err : Errno)
| Foreign (origin msg : string).

#[global] Instance Errno_eq_dec : EqDecision Errno.
Proof. solve_decision. Defined.

#[global] Instance error_eq_dec : EqDecision error.
Proof. solve_decision. Defined.

Definition strerror (e : Errno) : string :=
  match e with
  | EEXIST => "file exists"
  | ENOENT => "no such file or directory"
  end.

(** The method [Error] of the error values. *)
Fixpoint Error (e : error) : string :=
  match e with
  | errorString s => s
  | BuildErr Err => "error performing host build. " ++ Error Err
  | LinkError Op Old New Err =>
      Op ++ " " ++ Old ++ " " ++ New ++ ": " ++ strerror Err
  | Foreign _ msg => msg
  end.

(** [errors.As(err, &BuildErr{})] at the top of the chain. *)
Definition isBuildErr (e : error) : bool :=
  match e with BuildErr _ => true | _ => false end.

(** ** strconv *)

Module strconv.

(** The int of the platforms the builder targets is 64 bits wide. *)
Definition minInt : Z := - 2 ^ 63.
Definition maxInt : Z := 2 ^ 63 - 1.

Definition digits (s : string) : option Z :=
  match s with
  | EmptyString => None
  | _ => Z.of_uint <$> NilEmpty.uint_of_string s
  end.

(** [strconv.Atoi]: an optional sign, then one or more decimal digits;
    a value outside of the int range is an error. *)
Definition Atoi (s : string) : option Z :=
  let signed :=
    match s with
    | EmptyString => None
    | String c rest =>
        if Ascii.eqb c "-" then Z.opp <$> digits rest
        else if Ascii.eqb c "+" then digits rest
        else digits s
    end in
  n ← signed;
  if bool_decide (minInt ≤ n ≤ maxInt)%Z then Some n else None.

(** [strconv.Itoa]. *)
Definition Itoa (n : Z) : string := NilZero.string_of_int (Z.to_int n).

End strconv.

(** ** Paths *)

(** [filepath.Join]: the empty elements are dropped and the others are
    joined with the separator.  (The lexical cleaning Join applies to the
    result is not modelled; no path built here contains a dot element
    other than the link text of a PID marker.) *)
Definition nonempty (s : string) : bool :=
  match s with EmptyString => false | _ => true end.

Definition path (elems : list string) : string :=
  String.concat "/" (filter (fun s => nonempty s = true) elems).

(** [fn.RunDataDir] is declared in package functions; its value is the one
    the comment of [Build] spells out. *)
Definition RunDataDir : string := ".func".

(** The places the package touches.  A path below [by-hash] is kept as
    the list of its elements, so that [Builds []] is the directory
    [by-hash] itself and [Builds [h]] the build directory of hash [h]. *)
Inductive place :=
| Last
| PidsDir
| Pid (name : string)
| Builds (p : list string)
| Cwd (name : string).

#[global] Instance place_eq_dec : EqDecision place.
Proof. solve_decision. Defined.

Definition render (root : string) (pl : place) : string :=
  match pl with
  | Last => path [root; RunDataDir; "builds"; "last"]
  | PidsDir => path [root; RunDataDir; "builds"; "by-pid"]
  | Pid name => path [root; RunDataDir; "builds"; "by-pid"; name]
  | Builds p => path ([root; RunDataDir; "builds"; "by-hash"] ++ p)
  | Cwd name => name
  end.

(** The elements of a joined path below [by-hash]. *)
Definition below (elems : list string) : place :=
  Builds (filter (fun s => nonempty s = true) elems).

(** ** The OCI documents of go-containerregistry's package v1 *)

Module v1.

Record Hash := mkHash { Algorithm : string; Hex : string }.

Record Platform := mkPlatform {
  OS : string;
  Architecture : string;
  Variant : string;
  OSVersion : string }.

Record Descriptor := mkDescriptor {
  MediaType : string;
  Size : Z;
  Digest : Hash;
  Platform_ : option Platform }.

Record RootFS := mkRootFS { Type_ : string; DiffIDs : list Hash }.

(** The two Go maps with empty-struct values are sets of their keys. *)
Record Config := mkConfig {
  ExposedPorts : gset string;
  Env : list string;
  Cmd : list string;
  WorkingDir : string;
  StopSignal : string;
  Volumes : gset string }.

Record ConfigFile := mkConfigFile {
  Created : Z;
  cfArchitecture : string;
  cfOS : string;
  cfOSVersion : string;
  cfVariant : string;
  cfConfig : Config;
  cfRootFS : RootFS }.

Record Manifest := mkManifest {
  mSchemaVersion : Z;
  mMediaType : string;
  mConfig : Descriptor;
  mLayers : list Descriptor }.

Record IndexManifest := mkIndexManifest {
  iSchemaVersion : Z;
  iMediaType : string;
  iManifests : list Descriptor }.

(** A [v1.Layer] is an interface; the record holds the answers of the
    three methods the package calls, each of which may fail. *)
Record Layer := mkLayer {
  LDigest : error + Hash;
  LDiffID : error + Hash;
  LSize : error + Z }.

#[global] Instance Hash_eq_dec : EqDecision Hash.
Proof. solve_decision. Defined.
#[global] Instance Platform_eq_dec : EqDecision Platform.
Proof. solve_decision. Defined.
#[global] Instance Descriptor_eq_dec : EqDecision Descriptor.
Proof. solve_decision. Defined.

End v1.

Module types.
Definition OCILayer : string := "application/vnd.oci.image.layer.v1.tar+gzip".
Definition OCIManifestSchema1 : string := "application/vnd.oci.image.manifest.v1+json".
Definition OCIConfigJSON : string := "application/vnd.oci.image.config.v1+json".
Definition OCIImageIndex : string := "application/vnd.oci.image.index.v1+json".
End types.

(** ** Files *)

Module tar.
Inductive Typeflag := TypeReg | TypeDir.
Record Header := mkHeader {
  Name : string;
  Type_ : Typeflag;
  Mode : Z;
  ModTime : Z }.
End tar.

(** What a file written by the package holds: a literal text, a gzipped
    tar stream given by its entries, or the indented JSON encoding of one
    of the three documents. *)
Inductive file :=
| Text (s : string)
| TarGz (entries : list (tar.Header * string))
| JSONConfig (c : v1.ConfigFile)
| JSONManifest (m : v1.Manifest)
| JSONIndex (i : v1.IndexManifest).

(** A node of the function's source tree, as [filepath.Walk] sees it. *)
Inductive node :=
| File (name : string) (mode : Z) (content : string)
| Dir (name : string) (mode : Z) (children : list node).

Definition node_name (n : node) : string :=
  match n with File name _ _ | Dir name _ _ => name end.

(** ** The world

    - [by_hash]: the entries of [builds/by-hash]; every entry maps the
      paths of the files below it (relative to the entry) to their
      contents.  Directories below an entry are not tracked.
    - [by_pid]: the entries of [builds/by-pid], each a symbolic link
      recorded by the path below [by-hash] that its text resolves to.
      A missing [by-pid] directory reads as no entry ([os.ReadDir]'s error is
      dropped by every caller) and [setup] creates it before linking.
    - [last]: the link [builds/last], recorded the same way.
    - [cwd]: the files of the working directory of the process.
    - [source]: the entries of the function's root directory.
    - [alive]: the process table, as the answer of [os.FindProcess]
      followed by [Signal(0)]. *)
Record World := mkWorld {
  by_hash : gmap string (gmap (list string) file);
  by_pid : gmap string (list string);
  last : option (list string);
  cwd : gmap string file;
  source : list node;
  alive : Z → bool }.

Definition set_by_hash (f : gmap string (gmap (list string) file) → gmap string (gmap (list string) file)) (w : World) : World :=
  mkWorld (f (by_hash w)) (by_pid w) (last w) (cwd w) (source w) (alive w).
Definition set_by_pid (f : gmap string (list string) → gmap string (list string)) (w : World) : World :=
  mkWorld (by_hash w) (f (by_pid w)) (last w) (cwd w) (source w) (alive w).
Definition set_last (l : option (list string)) (w : World) : World :=
  mkWorld (by_hash w) (by_pid w) l (cwd w) (source w) (alive w).
Definition set_cwd (f : gmap string file → gmap string file) (w : World) : World :=
  mkWorld (by_hash w) (by_pid w) (last w) (f (cwd w)) (source w) (alive w).

Module os.

(** Whether a directory below [by-hash] exists.  The directory
    [by-hash] itself is taken to exist: a link to it is only ever made
    after [MkdirAll] of it, and nothing removes it.  The links that the
    package makes point at [by-hash] or at one of its entries; a link to
    anything deeper is taken as dangling. *)
Definition dir_exists (w : World) (p : list string) : bool :=
  match p with
  | [] => true
  | [d] => bool_decide (is_Some (by_hash w !! d))
  | _ => false
  end.

(** [os.Stat], which follows links: the error, if any. *)
Definition Stat (pl : place) (w : World) : option Errno :=
  match pl with
  | Last =>
      match last w with
      | Some p => if dir_exists w p then None else Some ENOENT
      | None => Some ENOENT
      end
  | Pid name =>
      match by_pid w !! name with
      | Some p => if dir_exists w p then None else Some ENOENT
      | None => Some ENOENT
      end
  | PidsDir => None
  | Builds p => if dir_exists w p then None else Some ENOENT
  | Cwd name => if bool_decide (is_Some (cwd w !! name)) then None else Some ENOENT
  end.

(** [os.MkdirAll]: creates what is missing, keeps what is there. *)
Definition MkdirAll (pl : place) (w : World) : World :=
  match pl with
  | Builds (d :: _) =>
      match by_hash w !! d with
      | Some _ => w
      | None => set_by_hash (insert d ∅) w
      end
  | _ => w
  end.

(** [os.RemoveAll]: the place and everything below it; no error when
    the place is absent. *)
Definition RemoveAll (pl : place) (w : World) : World :=
  match pl with
  | Last => set_last None w
  | PidsDir => set_by_pid (fun _ => ∅) w
  | Pid name => set_by_pid (delete name) w
  | Builds [] => set_by_hash (fun _ => ∅) w
  | Builds [d] => set_by_hash (delete d) w
  | Builds (d :: rest) =>
      set_by_hash (alter (filter (fun kv => ¬ (rest `prefix_of` kv.1))) d) w
  | Cwd name => set_cwd (delete name) w
  end.

(** [os.Symlink] of a link whose text resolves to [target]: fails with a
    [*os.LinkError] when the new name exists.  [old] is the link text. *)
Definition Symlink (root old : string) (target : list string) (new : place)
    (w : World) : World * option error :=
  let exists_ := LinkError "symlink" old (render root new) EEXIST in
  match new with
  | Last =>
      match last w with
      | Some _ => (w, Some exists_)
      | None => (set_last (Some target) w, None)
      end
  | Pid name =>
      match by_pid w !! name with
      | Some _ => (w, Some exists_)
      | None => (set_by_pid (insert name target) w, None)
      end
  | _ => (w, Some exists_)
  end.

(** [os.ReadDir] of the two directories the package lists: the names
    of the entries.  (Go returns them sorted by name; the loops that
    consume them do not depend on the order.) *)
Definition ReadDir (pl : place) (w : World) : list string :=
  match pl with
  | PidsDir => elements (dom (by_pid w))
  | Builds [] => elements (dom (by_hash w))
  | _ => []
  end.

(** [filepath.EvalSymlinks]: the path below [by-hash] that a place
    resolves to, when everything on the way exists. *)
Definition EvalSymlinks (pl : place) (w : World) : option (list string) :=
  match pl with
  | Last => p ← last w; if dir_exists w p then Some p else None
  | Pid name => p ← by_pid w !! name; if dir_exists w p then Some p else None
  | Builds p => if dir_exists w p then Some p else None
  | _ => None
  end.

(** Writing a file at a place, by [os.WriteFile], or by [os.Create] and an
    encoder. *)
Definition WriteFile (pl : place) (c : file) (w : World) : World :=
  match pl with
  | Builds (d :: rest) =>
      set_by_hash (fun m => <[d := <[rest := c]> (default ∅ (m !! d))]> m) w
  | Cwd name => set_cwd (insert name c) w
  | _ => w
  end.

Definition ReadFile (pl : place) (w : World) : option file :=
  match pl with
  | Builds (d :: rest) => m ← by_hash w !! d; m !! rest
  | Cwd name => cwd w !! name
  | _ => None
  end.

(** [os.Rename] of a file. *)
Definition Rename (old new : place) (w : World) : World :=
  match ReadFile old w with
  | Some c => WriteFile new c (RemoveAll old w)
  | None => w
  end.

End os.

(** ** The function being built (package functions) *)

Module fn.

(** [Env] and [Volume] hold pointers to strings; nil is [None]. *)
Record Env := mkEnv { Name : option string; Value : option string }.
Record Volume := mkVolume { Path : option string }.
Record RunSpec := mkRunSpec { Volumes : list Volume; Envs : list Env }.
Record BuildSpec := mkBuildSpec { BuildEnvs : list Env }.

Record Function := mkFunction {
  Root : string;
  Runtime : string;
  Image : string;
  Invoke : string;
  Run : RunSpec;
  Build : BuildSpec }.

(** Modelled from the spec: the method [Envs.Slice] of package functions
    is not among the sources.  The image config lists the declared
    variables, each as NAME=VALUE; a variable without a name has no such
    rendering and is left out, a nil value renders as the empty
    string. *)
Definition Slice (ee : list Env) : list string :=
  omap (fun e => (fun n => n ++ "=" ++ default "" (Value e)) <$> Name e) ee.

End fn.

(** ** builder.go *)

Definition DefaultPlatforms : list v1.Platform :=
  [ v1.mkPlatform "linux" "amd64" "" "";
    v1.mkPlatform "linux" "arm64" "" "";
    v1.mkPlatform "darwin" "amd64" "" "";
    v1.mkPlatform "darwin" "arm64" "" "" ].

Definition DefaultIgnored : list string :=
  [ ".git"; ".func"; ".funcignore"; ".gitignore" ].

Record Builder := NewBuilder { name : string; verbose : bool }.

(** A [context.Context], as far as the package is concerned: it is handed
    to the language layer builder, which binds its subprocess to it. *)
Inductive Context := Background | Cancelled.

(** [buildConfig]: the settings of a single build.  [t] is the timestamp
    of the build in nanoseconds. *)
Record buildConfig := mkBuildConfig {
  ctx : Context;
  f : fn.Function;
  t : Z;
  cverbose : bool;
  h : string }.

Section Coordinator.

(** [f.Fingerprint(false)]: the hash of the function's source tree and
    the error of computing it, if any.  A collaborator of the package. *)
Variable Fingerprint : fn.Function → list node → string * option error.

(** [os.Getpid()]. *)
Variable Getpid : Z.

(** [buildConfig.hash]: the cached hash when there is one, the
    fingerprint otherwise; the error of the fingerprint is written to
    standard error and not returned.  The source tree does not change
    during a build, so that the cached value is the one a new call
    computes, and the model does not thread the cache. *)
Definition hash (c : buildConfig) (w : World) : string :=
  if nonempty (h c) then h c else (Fingerprint (f c) (source w)).1.

(** What one call of [hash] writes to standard error. *)
Definition hash_stderr (c : buildConfig) (w : World) : list string :=
  if nonempty (h c) then []
  else match (Fingerprint (f c) (source w)).2 with
       | Some err => ["error calculating fingerprint for build. " ++ Error err]
       | None => []
       end.

Definition lastLink (c : buildConfig) : place := Last.
Definition pidsDir (c : buildConfig) : place := PidsDir.
Definition pidLink (c : buildConfig) : place := Pid (strconv.Itoa Getpid).
Definition buildsDir (c : buildConfig) : place := Builds [].
Definition buildDir (c : buildConfig) (w : World) : place :=
  below [hash c w].
Definition ociDir (c : buildConfig) (w : World) : place :=
  below [hash c w; "oci"].
Definition blobsDir (c : buildConfig) (w : World) : place :=
  below [hash c w; "oci"; "blobs"; "sha256"].

(** The elements of a place below [by-hash]. *)
Definition elems (pl : place) : list string :=
  match pl with Builds p => p | _ => [] end.

Definition processExists (pid : string) (w : World) : bool :=
  match strconv.Atoi pid with
  | None => false
  | Some p => alive w p
  end.

Definition isLinkTo (link target : place) (w : World) : bool :=
  match os.EvalSymlinks link w with
  | None => false
  | Some l =>
      match os.EvalSymlinks target w with
      | None => false
      | Some tg => bool_decide (l = tg)
      end
  end.

(** [isActive]: whether the directory is that of a build in progress. *)
Definition isActive (cfg : buildConfig) (dir : place) (w : World) : bool :=
  existsb (fun d => processExists d w && isLinkTo (Pid d) dir w)
          (os.ReadDir (pidsDir cfg) w).

Definition inProgress (dir : string) : error :=
  BuildErr (errorString
    ("Build directory already exists for this version hash and is associated with an active PID.  Is a build already in progress? "
     ++ dir)).

Definition setup (cfg : buildConfig) (w : World) : World * option error :=
  if isActive cfg (buildDir cfg w) w then
    (w, Some (inProgress (render (fn.Root (f cfg)) (buildDir cfg w))))
  else
    let w1 := os.MkdirAll (buildDir cfg w) w in
    let w2 := match os.Stat (pidsDir cfg) w1 with
              | Some ENOENT => os.MkdirAll (pidsDir cfg) w1
              | _ => w1
              end in
    let target := path [".."; "by-hash"; hash cfg w] in
    os.Symlink (fn.Root (f cfg)) target (elems (buildDir cfg w))
               (pidLink cfg) w2.

(** The first loop of [teardown]: the markers of processes that are no
    more. *)
Definition sweepMarkers (cfg : buildConfig) (w : World) : World :=
  foldl (fun w d =>
           if processExists d w then w
           else os.RemoveAll (Pid d) w)
        w (os.ReadDir (pidsDir cfg) w).

(** The second loop of [teardown]: the build directories that are
    neither the last one nor in progress. *)
Definition sweepBuilds (cfg : buildConfig) (w : World) : World :=
  foldl (fun w d =>
           let dir := Builds [d] in
           if isLinkTo (lastLink cfg) dir w then w
           else if isActive cfg dir w then w
           else os.RemoveAll dir w)
        w (os.ReadDir (buildsDir cfg) w).

(** [teardown].  Both loops return at the first removal that fails;
    on the ideal filesystem none does, and the result is nil. *)
Definition teardown (cfg : buildConfig) (w : World) : World * option error :=
  let w1 := os.RemoveAll (pidLink cfg) w in
  let w2 := sweepMarkers cfg w1 in
  let w3 := sweepBuilds cfg w2 in
  (w3, None).

(** [updateLastLink].  The text of the link is the path of the build
    directory as [buildDir] gives it; the root of the function is taken to
    be absolute, so that the text resolves to the build directory. *)
Definition updateLastLink (cfg : buildConfig) (w : World) : World * option error :=
  let w1 := os.RemoveAll (lastLink cfg) w in
  os.Symlink (fn.Root (f cfg)) (render (fn.Root (f cfg)) (buildDir cfg w))
             (elems (buildDir cfg w)) (lastLink cfg) w1.

End Coordinator.

(** ** containerize.go *)

(** [languageLayerBuilder]: the method [Build] of the interface.  The
    blob an implementation stores below the build directory is not
    tracked by the model. *)
Definition languageLayerBuilder : Type :=
  buildConfig → v1.Platform → error + (v1.Descriptor * v1.Layer).

Definition isIgnored (info : node) : bool :=
  existsb (String.eqb (node_name info)) DefaultIgnored.

Definition quote : string := String (ascii_of_nat 34) EmptyString.

(** The text of the [oci-layout] file. *)
Definition ociLayout : string :=
  "{ " ++ quote ++ "imageLayoutVersion" ++ quote ++ ": "
       ++ quote ++ "1.0.0" ++ quote ++ " }".

(** The callback that [newData] hands to [filepath.Walk], applied to a
    node found at [dir] (the path of its directory relative to the root)
    and, for a directory that is not skipped, to what is below it.  The
    name of a header is [/func] joined with the path relative to the
    root. *)
Fixpoint walk (t : Z) (dir : string) (info : node) : list (tar.Header * string) :=
  if isIgnored info then []
  else
    match info with
    | File name mode content =>
        [ (tar.mkHeader ("/func" ++ dir ++ "/" ++ name) tar.TypeReg mode t, content) ]
    | Dir name mode children =>
        (tar.mkHeader ("/func" ++ dir ++ "/" ++ name) tar.TypeDir mode t, "")
          :: flat_map (walk t (dir ++ "/" ++ name)) children
    end.

Section Containerize.

Variable Fingerprint : fn.Function → list node → string * option error.

(** [v1.SHA256] of a file: its digest and its size. *)
Variable SHA256 : file → v1.Hash * Z.

(** [tarball.LayerFromFile]. *)
Variable LayerFromFile : file → error + v1.Layer.

(** [goLayerBuilder{}], whose method is not among the sources. *)
Variable goLayerBuilder : languageLayerBuilder.

Local Abbreviation hash := (hash Fingerprint).
Local Abbreviation buildDir := (buildDir Fingerprint).
Local Abbreviation ociDir := (ociDir Fingerprint).
Local Abbreviation blobsDir := (blobsDir Fingerprint).

Definition newLanguageLayerBuilder (cfg : buildConfig)
    : option languageLayerBuilder * option error :=
  let runtime := fn.Runtime (f cfg) in
  if String.eqb runtime "go" then (Some goLayerBuilder, None)
  else if String.eqb runtime "python" then
    (None, Some (errorString "Python functions are not yet supported by the host builder."))
  else if String.eqb runtime "node" then
    (None, Some (errorString "Node functions are not yet supported by the host builder."))
  else if String.eqb runtime "rust" then
    (None, Some (errorString "Rust functions are not yet supported by the host builder."))
  else
    (None, Some (errorString ("The language runtime '" ++ runtime
                    ++ "' is not a recognized language by the host builder."))).

(** [newData]: the shared data layer.  The value [filepath.Walk] returns
    is dropped by the source. *)
Definition newData (cfg : buildConfig) (w : World)
    : World * (error + (v1.Descriptor * v1.Layer)) :=
  let tarPath := below [hash cfg w; "datalayer.tar.gz"] in
  let entries :=
    (tar.mkHeader "/func" tar.TypeDir 493 (t cfg), "")
      :: flat_map (walk (t cfg) "") (source w) in
  let w1 := os.WriteFile tarPath (TarGz entries) w in
  match LayerFromFile (TarGz entries) with
  | inl err => (w1, inl err)
  | inr layer =>
      match v1.LSize layer with
      | inl err => (w1, inl err)
      | inr dls =>
          match v1.LDigest layer with
          | inl err => (w1, inl err)
          | inr dld =>
              let desc := v1.mkDescriptor types.OCILayer dls dld None in
              let blobPath := below [hash cfg w; "oci"; "blobs"; "sha256"; v1.Hex dld] in
              (os.Rename tarPath blobPath w1, inr (desc, layer))
          end
      end
  end.

(** The loop of [newConfig] over the layers. *)
Fixpoint diffIDs (layers : list v1.Layer) : error + list v1.Hash :=
  match layers with
  | [] => inr []
  | v :: rest =>
      match v1.LDiffID v with
      | inl err => inl err
      | inr diff =>
          match diffIDs rest with
          | inl err => inl err
          | inr ids => inr (diff :: ids)
          end
      end
  end.

Definition newConfig (cfg : buildConfig) (p : v1.Platform)
    (layers : list v1.Layer) (w : World)
    : World * (error + (v1.Descriptor * v1.ConfigFile)) :=
  let volumes : gset string :=
    list_to_set (omap fn.Path (fn.Volumes (fn.Run (f cfg)))) in
  match diffIDs layers with
  | inl err => (w, inl err)
  | inr ids =>
      let rootfs := v1.mkRootFS "layers" ids in
      let config :=
        v1.mkConfigFile (t cfg) (v1.Architecture p) (v1.OS p)
          (v1.OSVersion p) (v1.Variant p)
          (v1.mkConfig {[ "8080/tcp" ]}
                       (fn.Slice (fn.Envs (fn.Run (f cfg))))
                       [ "/func/f" ] "/func/" "SIGKILL" volumes)
          rootfs in
      let filePath := below [hash cfg w; "config.json"] in
      let w1 := os.WriteFile filePath (JSONConfig config) w in
      let '(hash_, size) := SHA256 (JSONConfig config) in
      let desc := v1.mkDescriptor types.OCIConfigJSON size hash_ None in
      let blobPath := below [hash cfg w; "oci"; "blobs"; "sha256"; v1.Hex hash_] in
      (os.Rename filePath blobPath w1, inr (desc, config))
  end.

Definition newImage (cfg : buildConfig) (dataDesc : v1.Descriptor)
    (dataLayer : v1.Layer) (p : v1.Platform) (w : World)
    : World * (error + v1.Descriptor) :=
  match newLanguageLayerBuilder cfg with
  | (_, Some err) => (w, inl err)
  | (None, None) =>
      (* not reached: [newLanguageLayerBuilder] returns a builder or an
         error; the call of a nil interface would panic *)
      (w, inl (errorString "invalid memory address or nil pointer dereference"))
  | (Some b, None) =>
      match b cfg p with
      | inl err => (w, inl err)
      | inr (execDesc, execLayer) =>
          match newConfig cfg p [dataLayer; execLayer] w with
          | (w1, inl err) => (w1, inl err)
          | (w1, inr (configDesc, _)) =>
              let image :=
                v1.mkManifest 2 types.OCIManifestSchema1 configDesc
                              [dataDesc; execDesc] in
              let filePath :=
                Cwd ("image." ++ v1.OS p ++ "." ++ v1.Architecture p ++ ".json") in
              let w2 := os.WriteFile filePath (JSONManifest image) w1 in
              let '(hash_, size) := SHA256 (JSONManifest image) in
              let imageDesc :=
                v1.mkDescriptor types.OCIManifestSchema1 size hash_ (Some p) in
              let blobPath := below [hash cfg w; "oci"; "blobs"; "sha256"; v1.Hex hash_] in
              (os.Rename filePath blobPath w2, inr imageDesc)
          end
      end
  end.

Definition newImageIndex (cfg : buildConfig) (imageDescs : list v1.Descriptor)
    (w : World) : World * (error + v1.IndexManifest) :=
  let index := v1.mkIndexManifest 2 types.OCIImageIndex imageDescs in
  let filePath := below [hash cfg w; "oci"; "index.json"] in
  (os.WriteFile filePath (JSONIndex index) w, inr index).

(** The loop of [containerize] over the platforms. *)
Fixpoint images (cfg : buildConfig) (dataDesc : v1.Descriptor)
    (dataLayer : v1.Layer) (ps : list v1.Platform)
    (imageDescs : list v1.Descriptor) (w : World)
    : World * (error + list v1.Descriptor) :=
  match ps with
  | [] => (w, inr imageDescs)
  | p :: rest =>
      match newImage cfg dataDesc dataLayer p w with
      | (w1, inl err) => (w1, inl err)
      | (w1, inr imageDesc) =>
          images cfg dataDesc dataLayer rest (imageDescs ++ [imageDesc]) w1
      end
  end.

Definition containerize (cfg : buildConfig) (w : World) : World * option error :=
  let w1 := os.MkdirAll (blobsDir cfg w) w in
  let w2 := os.WriteFile (below [hash cfg w; "oci"; "oci-layout"]) (Text ociLayout) w1 in
  match newData cfg w2 with
  | (w3, inl err) => (w3, Some err)
  | (w3, inr (dataDesc, dataLayer)) =>
      match images cfg dataDesc dataLayer DefaultPlatforms [] w3 with
      | (w4, inl err) => (w4, Some err)
      | (w4, inr imageDescs) =>
          match newImageIndex cfg imageDescs w4 with
          | (w5, inl err) => (w5, Some err)
          | (w5, inr _) => (w5, None)
          end
      end
  end.

End Containerize.

(** ** scaffold.go *)

Section Scaffolding.

(** The collaborators of [scaffolding.Write]: the detection of the
    signature of the source, and the embedded filesystem that holds the
    scaffolding. *)
Variable signature : string → string → string → error + string.
Variable fsStat : string → option error.
Variable CopyFromFS : string → string → option error.

(** [scaffolding.Write].  What it writes lands below [out], the build
    directory, among the files the model does not track; the link [f] it
    replaces there is removed before it is made. *)
Definition Write (out src runtime invoke : string) : option error :=
  match signature src runtime invoke with
  | inl _ => None
  | inr s =>
      let d := path [runtime; "scaffolding"; s] in
      match fsStat d with
      | Some err =>
          Some (errorString ("no scaffolding found for '" ++ runtime
                  ++ "' signature '" ++ s ++ "'. " ++ Error err
                  ++ ".  Note that this test requires the filesystem be regenerated (try make first)."))
      | None =>
          match CopyFromFS d out with
          | Some err => Some err
          | None => None
          end
      end
  end.

End Scaffolding.

(** ** Build *)

Section Build.

Variable Fingerprint : fn.Function → list node → string * option error.
Variable Getpid : Z.
Variable SHA256 : file → v1.Hash * Z.
Variable LayerFromFile : file → error + v1.Layer.
Variable goLayerBuilder : languageLayerBuilder.

(** The error of [fn.NewRepository], which loads the embedded
    repository. *)
Variable NewRepository : option error.
Variable signature : string → string → string → error + string.
Variable fsStat : string → option error.
Variable CopyFromFS : string → string → option error.

(** [time.Now()] at the start of the build. *)
Variable now : Z.

(** The call of [scaffolding.Write] in [Build]. *)
Definition scaffold (cfg : buildConfig) (w : World) : option error :=
  Write signature fsStat CopyFromFS
        (render (fn.Root (f cfg)) (buildDir Fingerprint cfg w))
        (fn.Root (f cfg)) (fn.Runtime (f cfg)) (fn.Invoke (f cfg)).

(** The statements of [Build] between the deferral of [teardown] and the
    return. *)
Definition build (cfg : buildConfig) (w : World) : World * option error :=
  match NewRepository with
  | Some err => (w, Some err)
  | None =>
      match scaffold cfg w with
      | Some err => (w, Some err)
      | None =>
          match containerize Fingerprint SHA256 LayerFromFile goLayerBuilder cfg w with
          | (w1, Some err) => (w1, Some err)
          | (w1, None) => updateLastLink Fingerprint cfg w1
          end
      end
  end.

(** [Builder.Build].  The deferred [teardown] runs on every return that
    follows a successful [setup]; what it returns is dropped. *)
Definition Build (b : Builder) (ctx : Context) (f : fn.Function) (w : World)
    : World * option error :=
  let cfg := mkBuildConfig ctx f now (verbose b) "" in
  match setup Fingerprint Getpid cfg w with
  | (w1, Some err) => (w1, Some err)
  | (w1, None) =>
      let '(w2, err) := build cfg w1 in
      ((teardown Getpid cfg w2).1, err)
  end.

End Build.

(** ** The pusher *)

Section Pusher.

(** The registry, and the three operations of go-containerregistry that
    [Push] relies on: parsing the image name, writing an index to the
    registry, and the digest of an index. *)
Variable Registry : Type.
Variable ParseReference : string → error + string.
Variable WriteIndex : string → v1.IndexManifest → World → Registry → Registry * option string.
Variable IndexDigest : v1.IndexManifest → error + v1.Hash.

(** An error of the transport to the registry. *)
Definition transportError (msg : string) : error := Foreign "remote" msg.

(** [layout.ImageIndexFromPath] of the directory [oci] below a link to a
    build directory: the index that [index.json] holds. *)
Definition ImageIndexFromPath (link : place) (w : World) : error + v1.IndexManifest :=
  match os.EvalSymlinks link w with
  | None => inl (Foreign "layout" "no such file or directory")
  | Some p =>
      match os.ReadFile (Builds (p ++ ["oci"; "index.json"])) w with
      | Some (JSONIndex index) => inr index
      | _ => inl (Foreign "layout" "index.json")
      end
  end.

Definition getLastBuildDir (f : fn.Function) (w : World) : place * option error :=
  let dir := Last in
  match os.Stat dir w with
  | Some ENOENT =>
      (dir, Some (errorString ("last build directory not found '"
                     ++ render (fn.Root f) dir ++ "'. Has it been built?")))
  | _ => (dir, None)
  end.

(** [Pusher.Push].  The goroutine that draws the progress bar is not
    modelled.  The world is handed to every step and handed back as the
    first component of the result. *)
Definition Push (f : fn.Function) (w : World) (r : Registry)
    : World * Registry * (string * option error) :=
  match ParseReference (fn.Image f) with
  | inl err => (w, r, ("", Some err))
  | inr ref =>
      match getLastBuildDir f w with
      | (_, Some err) => (w, r, ("", Some err))
      | (buildDir, None) =>
          match ImageIndexFromPath buildDir w with
          | inl err => (w, r, ("", Some err))
          | inr ii =>
              match WriteIndex ref ii w r with
              | (r1, Some msg) => (w, r1, ("", Some (transportError msg)))
              | (r1, None) =>
                  match IndexDigest ii with
                  | inl err => (w, r1, ("", Some err))
                  | inr h => (w, r1, (v1.Algorithm h ++ ":" ++ v1.Hex h, None))
                  end
              end
          end
      end
  end.

End Pusher.

(** ** The helpers of containerize.go and of the coordinator *)

Module strings.

(** [strings.HasPrefix]. *)
Definition HasPrefix (s prefix : string) : bool := String.prefix prefix s.

(** The string without its first [n] bytes. *)
Fixpoint skip (n : nat) (s : string) : string :=
  match n, s with
  | O, _ => s
  | S n', String _ s' => skip n' s'
  | S _, EmptyString => EmptyString
  end.

(** [strings.TrimPrefix]. *)
Definition TrimPrefix (s prefix : string) : string :=
  if HasPrefix s prefix then skip (String.length prefix) s else s.

End strings.

(** [rel]: the path relative to the build directory, for the messages
    printed under [verbose]; a plain trim of the prefix. *)
Definition rel (base path : string) : string :=
  if strings.HasPrefix path base then "." ++ strings.TrimPrefix path base
  else path.

(** A source tree without the entries that [newData] passes over, at
    every depth. *)
Fixpoint prune (info : node) : node :=
  match info with
  | File name mode content => File name mode content
  | Dir name mode children =>
      Dir name mode
          ((fix go (l : list node) : list node :=
              match l with
              | [] => []
              | c :: l' => if isIgnored c then go l' else prune c :: go l'
              end) children)
  end.

(** The same at the top of the tree. *)
Definition pruned (l : list node) : list node :=
  map prune (List.filter (fun c => negb (isIgnored c)) l).

(** ** Sample data

    A function, collaborators that always succeed, and a few worlds, on
    which the statements below are run. *)

Module sample.

Definition Fingerprint : fn.Function → list node → string * option error :=
  fun _ _ => ("abc", None).

(** A fingerprint that cannot be computed. *)
Definition failingFingerprint : fn.Function → list node → string * option error :=
  fun _ _ => ("", Some (Foreign "fingerprint" "permission denied")).

(** A stand-in for the digest that tells apart the documents written for
    the sample function. *)
Definition SHA256 (c : file) : v1.Hash * Z :=
  match c with
  | JSONConfig cf =>
      (v1.mkHash "sha256"
         ("config-" ++ v1.cfOS cf ++ "-" ++ v1.cfArchitecture cf ++ "-"
                    ++ strconv.Itoa (v1.Created cf)), 100)
  | JSONManifest m =>
      (v1.mkHash "sha256" ("manifest-of-" ++ v1.Hex (v1.Digest (v1.mConfig m))), 200)
  | _ => (v1.mkHash "sha256" "other", 300)
  end.

Definition layer (tag : string) : v1.Layer :=
  v1.mkLayer (inr (v1.mkHash "sha256" ("gz-" ++ tag)))
             (inr (v1.mkHash "sha256" ("tar-" ++ tag)))
             (inr 10).

Definition LayerFromFile : file → error + v1.Layer :=
  fun _ => inr (layer "data").

Definition goLayerBuilder : languageLayerBuilder :=
  fun _ p =>
    let tag := "exec-" ++ v1.OS p ++ "-" ++ v1.Architecture p in
    inr (v1.mkDescriptor types.OCILayer 10 (v1.mkHash "sha256" ("gz-" ++ tag)) (Some p),
         layer tag).

Definition signature : string → string → string → error + string :=
  fun _ _ _ => inr "instanced-http".
Definition fsStat : string → option error := fun _ => None.
Definition CopyFromFS : string → string → option error := fun _ _ => None.

(** A Go function with a build-time variable, no run-time variable, and
    one volume. *)
Definition f : fn.Function :=
  fn.mkFunction "/home/alice/f" "go" "example.com/alice/f:latest" ""
    (fn.mkRunSpec [fn.mkVolume (Some "/data"); fn.mkVolume None] [])
    (fn.mkBuildSpec [fn.mkEnv (Some "FOO") (Some "bar")]).

Definition tree : list node :=
  [ Dir ".git" 493 [File "HEAD" 420 "ref: refs/heads/main"];
    File "go.mod" 420 "module function";
    File "handle.go" 420 "package function" ].

(** The processes 100 and 200 exist; no other does. *)
Definition alive (p : Z) : bool := bool_decide (p = 100 ∨ p = 200).

(** Nothing has been built. *)
Definition fresh : World := mkWorld ∅ ∅ None ∅ tree alive.

(** The process 100 is building the hash of the sample function, and the
    process 999, which is no more, has left its marker and its directory
    behind. *)
Definition building : World :=
  mkWorld {[ "abc" := ∅; "old" := ∅ ]}
          {[ "100" := ["abc"]; "999" := ["old"] ]}
          None ∅ tree alive.

(** A marker named 200 is there, pointing at another hash: left by an
    earlier process with the same identifier, or made by a build that this
    process has under way. *)
Definition marked : World :=
  mkWorld {[ "old" := ∅ ]} {[ "200" := ["old"] ]} None ∅ tree alive.

Definition b : Builder := NewBuilder "host" false.

(** A registry that records what is written to it, and the operations of
    the registry client on it. *)
Definition Registry : Type := list (string * v1.IndexManifest).

Definition ParseReference (s : string) : error + string :=
  if nonempty s then inr s
  else inl (Foreign "name" "could not parse reference").

Definition WriteIndex (ref : string) (ii : v1.IndexManifest) (w : World)
    (r : Registry) : Registry * option string :=
  ((ref, ii) :: r, None).

Definition IndexDigest (ii : v1.IndexManifest) : error + v1.Hash :=
  inr (SHA256 (JSONIndex ii)).1.

End sample.

(** ** Predicates on worlds *)

(** A marker is live when its name is that of a process that exists. *)
Definition liveMarker (w : World) (name : string) (p : list string) : Prop :=
  by_pid w !! name = Some p ∧ processExists name w = true.

(** A build directory is kept by the second loop of [teardown] when it is
    the target of the last link or of a live marker. *)
Definition kept (w : World) (d : string) : Prop :=
  last w = Some [d] ∨ ∃ name, liveMarker w name [d].

(** What the two loops of [teardown] leave alone. *)
Definition sameMarkers (w w' : World) : Prop :=
  by_pid w' = by_pid w ∧ last w' = last w ∧ alive w' = alive w.

Definition sameBuilds (w w' : World) : Prop :=
  by_hash w' = by_hash w ∧ last w' = last w ∧ alive w' = alive w ∧
  cwd w' = cwd w ∧ source w' = source w.

(** What the containerizer leaves alone. *)
Definition sameLinks (w w' : World) : Prop :=
  by_pid w' = by_pid w ∧ last w' = last w ∧ alive w' = alive w ∧
  source w' = source w.

(** The paths below [by-hash] that the containerizer of the hash [h]
    neither writes nor removes on the way to the index: those that are no
    blob and are not at or below one of its two temporary files. *)
Definition untouched (h : string) (q : list string) : Prop :=
  (∀ x, q ≠ elems (below [h; "oci"; "blobs"; "sha256"; x])) ∧
  ¬ elems (below [h; "datalayer.tar.gz"]) `prefix_of` q ∧
  ¬ elems (below [h; "config.json"]) `prefix_of` q.

(** The name of the temporary file of the manifest of a platform, in the
    working directory of the process. *)
Definition manifestFile (p : v1.Platform) : string :=
  "image." ++ v1.OS p ++ "." ++ v1.Architecture p ++ ".json".

(** * Properties *)

(** ** strconv: a printed int reads back *)

Lemma string_of_uint_digit d c s :
  NilEmpty.string_of_uint d = String c s →
  Ascii.eqb c "-" = false ∧ Ascii.eqb c "+" = false.
Proof. destruct d; simpl; intros [= <- _]; split; reflexivity. Qed.

Lemma string_of_uint_nonempty d :
  d ≠ Nil → NilEmpty.string_of_uint d ≠ EmptyString.
Proof. destruct d; simpl; congruence. Qed.

Lemma digits_string_of_uint d :
  d ≠ Nil → strconv.digits (NilEmpty.string_of_uint d) = Some (Z.of_uint d).
Proof.
  intros Hd. unfold strconv.digits.
  destruct (NilEmpty.string_of_uint d) eqn:E.
  - by apply string_of_uint_nonempty in E.
  - rewrite <- E, NilEmpty.usu. reflexivity.
Qed.

Lemma string_of_uint_NilZero d :
  d ≠ Nil → NilZero.string_of_uint d = NilEmpty.string_of_uint d.
Proof. by destruct d. Qed.

Lemma Atoi_digits s n :
  (∀ c r, s = String c r → Ascii.eqb c "-" = false ∧ Ascii.eqb c "+" = false) →
  strconv.digits s = Some n →
  (strconv.minInt ≤ n ≤ strconv.maxInt)%Z →
  strconv.Atoi s = Some n.
Proof.
  intros Hc Hd Hn. unfold strconv.Atoi.
  destruct s as [|c r]; [done|].
  destruct (Hc c r eq_refl) as [-> ->]. rewrite Hd. simpl.
  by rewrite bool_decide_true.
Qed.

Lemma Atoi_Itoa n :
  (strconv.minInt ≤ n ≤ strconv.maxInt)%Z →
  strconv.Atoi (strconv.Itoa n) = Some n.
Proof.
  intros Hn. unfold strconv.Itoa.
  assert (Hpos : ∀ p, Z.of_uint (Pos.to_uint p) = Z.pos p).
  { intros p. exact (DecimalZ.of_to (Z.pos p)). }
  destruct n as [|p|p]; simpl.
  - reflexivity.
  - pose proof (Unsigned.to_uint_nonnil p) as Hnil.
    rewrite string_of_uint_NilZero by done.
    apply Atoi_digits; [| |done].
    + intros c r E. by eapply string_of_uint_digit.
    + by rewrite digits_string_of_uint, Hpos.
  - pose proof (Unsigned.to_uint_nonnil p) as Hnil.
    rewrite string_of_uint_NilZero by done.
    unfold strconv.Atoi. simpl.
    rewrite digits_string_of_uint, Hpos by done. simpl.
    by rewrite bool_decide_true.
Qed.

(** ** The coordinator *)

Section CoordinatorFacts.

Variable Fingerprint : fn.Function → list node → string * option error.
Variable Getpid : Z.

Local Abbreviation hash' := (hash Fingerprint).
Local Abbreviation buildDir' := (buildDir Fingerprint).
Local Abbreviation setup' := (setup Fingerprint Getpid).
Local Abbreviation teardown' := (teardown Getpid).
Local Abbreviation updateLastLink' := (updateLastLink Fingerprint).
Local Abbreviation pidLink' := (pidLink Getpid).

Lemma processExists_Itoa (w : World) :
  (strconv.minInt ≤ Getpid ≤ strconv.maxInt)%Z →
  processExists (strconv.Itoa Getpid) w = alive w Getpid.
Proof. intros H. unfold processExists. by rewrite Atoi_Itoa. Qed.

Lemma isLinkTo_Pid name p (w : World) :
  isLinkTo (Pid name) (Builds p) w = true ↔
  by_pid w !! name = Some p ∧ os.dir_exists w p = true.
Proof.
  unfold isLinkTo; simpl.
  destruct (by_pid w !! name) as [q|] eqn:E; simpl.
  - destruct (os.dir_exists w q) eqn:Eq; simpl.
    + destruct (os.dir_exists w p) eqn:Ep; simpl.
      * rewrite bool_decide_eq_true. naive_solver.
      * naive_solver.
    + split; [done|]. intros [[= ->] ?]. congruence.
  - naive_solver.
Qed.

Lemma isLinkTo_Last p (w : World) :
  isLinkTo Last (Builds p) w = true ↔
  last w = Some p ∧ os.dir_exists w p = true.
Proof.
  unfold isLinkTo; simpl.
  destruct (last w) as [q|] eqn:E; simpl.
  - destruct (os.dir_exists w q) eqn:Eq; simpl.
    + destruct (os.dir_exists w p) eqn:Ep; simpl.
      * rewrite bool_decide_eq_true. naive_solver.
      * naive_solver.
    + split; [done|]. intros [[= ->] ?]. congruence.
  - naive_solver.
Qed.

Lemma isActive_true cfg p (w : World) :
  isActive cfg (Builds p) w = true ↔
  ∃ name, liveMarker w name p ∧ os.dir_exists w p = true.
Proof.
  unfold isActive, liveMarker. rewrite existsb_exists. simpl. split.
  - intros (name & _ & H). apply andb_true_iff in H as [H1 H2].
    apply isLinkTo_Pid in H2. naive_solver.
  - intros (name & [H1 H2] & H3). exists name. split.
    + apply list_elem_of_In, elem_of_elements, elem_of_dom. eauto.
    + apply andb_true_iff. split; [done|]. by apply isLinkTo_Pid.
Qed.

Lemma processExists_alive d (w w' : World) :
  alive w' = alive w → processExists d w' = processExists d w.
Proof. unfold processExists. by intros ->. Qed.

Lemma sweepMarkers_fold (l : list string) (w : World) :
  let w' := foldl (fun w d => if processExists d w then w
                              else os.RemoveAll (Pid d) w) w l in
  sameBuilds w w' ∧
  ∀ name, by_pid w' !! name =
          if decide (name ∈ l ∧ processExists name w = false) then None
          else by_pid w !! name.
Proof.
  revert w. induction l as [|d l IH]; intros w; cbn [foldl].
  - split; [done|]. intros name. destruct (decide _) as [[H _]|]; [|done].
    by apply elem_of_nil in H.
  - set (w1 := if processExists d w then w else os.RemoveAll (Pid d) w).
    assert (H1 : sameBuilds w w1 ∧
                 ∀ name, by_pid w1 !! name =
                   if decide (name = d ∧ processExists name w = false)
                   then None else by_pid w !! name).
    { unfold w1. destruct (processExists d w) eqn:E.
      - split; [done|]. intros name. destruct (decide _) as [[-> H]|]; [|done].
        congruence.
      - split; [done|]. intros name. simpl. destruct (decide _) as [[-> _]|H].
        + apply lookup_delete_eq.
        + apply lookup_delete_ne. intros <-. by apply H. }
    destruct H1 as [(Hh & Hl & Ha & Hc & Hs) Hp].
    destruct (IH w1) as [(Hh' & Hl' & Ha' & Hc' & Hs') Hp'].
    split; [split_and!; congruence|].
    intros name. rewrite Hp', Hp.
    rewrite (processExists_alive name w w1) by done.
    repeat case_decide; try done; exfalso; set_solver.
Qed.

Lemma kept_same (w w' : World) d :
  sameMarkers w w' → kept w' d ↔ kept w d.
Proof.
  intros (Hp & Hl & Ha). unfold kept, liveMarker.
  rewrite Hp, Hl.
  by setoid_rewrite (fun name => processExists_alive name w w' Ha).
Qed.

Lemma sweepBuilds_step cfg (w : World) d :
  let w' := if isLinkTo (lastLink cfg) (Builds [d]) w then w
            else if isActive cfg (Builds [d]) w then w
            else os.RemoveAll (Builds [d]) w in
  sameMarkers w w' ∧ cwd w' = cwd w ∧ source w' = source w ∧
  (∀ x, x ≠ d ∨ kept w x → by_hash w' !! x = by_hash w !! x) ∧
  (¬ kept w d → by_hash w' !! d = None).
Proof.
  cbn zeta. destruct (isLinkTo (lastLink cfg) (Builds [d]) w) eqn:E1.
  { apply isLinkTo_Last in E1 as [E1 _]. split_and!; try done.
    intros H. exfalso. apply H. by left. }
  destruct (isActive cfg (Builds [d]) w) eqn:E2.
  { apply isActive_true in E2 as (name & E2 & _). split_and!; try done.
    intros H. exfalso. apply H. right. eauto. }
  split_and!; try done; simpl.
  - intros x [Hx|Hk].
    + by apply lookup_delete_ne.
    + destruct (decide (x = d)) as [->|]; [|by apply lookup_delete_ne].
      rewrite lookup_delete_eq. symmetry.
      destruct (by_hash w !! d) eqn:Ed; [exfalso|done].
      assert (Hex : os.dir_exists w [d] = true).
      { simpl. rewrite Ed. by apply bool_decide_eq_true. }
      destruct Hk as [Hk|[name Hk]].
      * assert (isLinkTo Last (Builds [d]) w = true) by by apply isLinkTo_Last.
        unfold lastLink in E1. congruence.
      * assert (isActive cfg (Builds [d]) w = true)
          by (apply isActive_true; eauto).
        congruence.
  - intros _. apply lookup_delete_eq.
Qed.

Lemma sweepBuilds_fold cfg (l : list string) (w : World) :
  let w' := foldl (fun w d =>
                     let dir := Builds [d] in
                     if isLinkTo (lastLink cfg) dir w then w
                     else if isActive cfg dir w then w
                     else os.RemoveAll dir w) w l in
  sameMarkers w w' ∧ cwd w' = cwd w ∧ source w' = source w ∧
  (∀ x, x ∉ l ∨ kept w x → by_hash w' !! x = by_hash w !! x) ∧
  (∀ x, x ∈ l → ¬ kept w x → by_hash w' !! x = None).
Proof.
  revert w. induction l as [|d l IH]; intros w; cbn [foldl].
  - split_and!; try done. intros x H. by apply elem_of_nil in H.
  - pose proof (sweepBuilds_step cfg w d) as (Hs & Hc & Hsrc & Hk & Hr).
    cbn zeta in *.
    set (w1 := if isLinkTo (lastLink cfg) (Builds [d]) w then w
               else if isActive cfg (Builds [d]) w then w
               else os.RemoveAll (Builds [d]) w) in *.
    destruct (IH w1) as (Hs' & Hc' & Hsrc' & Hk' & Hr').
    split_and!.
    + destruct Hs as (? & ? & ?), Hs' as (? & ? & ?). split_and!; congruence.
    + congruence.
    + congruence.
    + intros x Hx.
      assert (Hx1 : x ≠ d ∨ kept w x).
      { destruct Hx as [Hx|Hx]; [left|by right]. set_solver. }
      rewrite <- (Hk x Hx1).
      destruct Hx as [Hx|Hx].
      * apply Hk'. left. set_solver.
      * apply Hk'. right. by apply (kept_same w w1).
    + intros x Hx Hnk.
      assert (Hnk1 : ¬ kept w1 x) by (by rewrite (kept_same w w1)).
      destruct (decide (x ∈ l)) as [Hin|Hin]; [by apply Hr'|].
      assert (x = d) as -> by set_solver.
      rewrite Hk' by (by left). by apply Hr.
Qed.

(** The directory of a hash: [by-hash] itself for the empty hash. *)
Lemma below_hash (x : string) :
  below [x] = Builds (if nonempty x then [x] else []).
Proof. unfold below. by destruct x. Qed.

Lemma MkdirAll_buildDir cfg (w : World) :
  let w1 := os.MkdirAll (buildDir' cfg w) w in
  sameMarkers w w1 ∧ cwd w1 = cwd w ∧ source w1 = source w ∧
  os.dir_exists w1 (elems (buildDir' cfg w)) = true ∧
  (∀ d files, by_hash w !! d = Some files → by_hash w1 !! d = Some files) ∧
  (∀ d, [d] ≠ elems (buildDir' cfg w) → by_hash w1 !! d = by_hash w !! d).
Proof.
  unfold buildDir. rewrite below_hash.
  destruct (nonempty (hash' cfg w)) eqn:E; cbn [os.MkdirAll elems].
  - destruct (by_hash w !! hash' cfg w) as [m|] eqn:Em.
    + split_and!; try done. cbn. rewrite Em. by apply bool_decide_eq_true.
    + split_and!; try done.
      * cbn. rewrite lookup_insert_eq. by apply bool_decide_eq_true.
      * intros d files Hd. cbn. rewrite lookup_insert_ne; [done|congruence].
      * intros d Hd. cbn. rewrite lookup_insert_ne; [done|congruence].
  - split_and!; done.
Qed.

Lemma setup_active cfg (w : World) :
  isActive cfg (buildDir' cfg w) w = true →
  setup' cfg w = (w, Some (inProgress (render (fn.Root (f cfg)) (buildDir' cfg w)))).
Proof. intros H. unfold setup. by rewrite H. Qed.

Lemma setup_inactive cfg (w : World) :
  isActive cfg (buildDir' cfg w) w = false →
  setup' cfg w =
    os.Symlink (fn.Root (f cfg)) (path [".."; "by-hash"; hash' cfg w])
               (elems (buildDir' cfg w)) (pidLink' cfg)
               (os.MkdirAll (buildDir' cfg w) w).
Proof. intros H. unfold setup. by rewrite H. Qed.

(** [setup] either reports a build in progress, or fails on a marker of
    its own that is already there, or succeeds. *)
Lemma setup_cases cfg (w : World) :
  let dir := buildDir' cfg w in
  let w1 := os.MkdirAll dir w in
  if isActive cfg dir w then
    setup' cfg w = (w, Some (inProgress (render (fn.Root (f cfg)) dir)))
  else
    match by_pid w !! strconv.Itoa Getpid with
    | Some _ =>
        setup' cfg w =
          (w1, Some (LinkError "symlink" (path [".."; "by-hash"; hash' cfg w])
                               (render (fn.Root (f cfg)) (pidLink' cfg)) EEXIST))
    | None =>
        setup' cfg w =
          (set_by_pid (insert (strconv.Itoa Getpid) (elems dir)) w1, None)
    end.
Proof.
  cbn zeta. destruct (isActive cfg (buildDir' cfg w) w) eqn:E.
  - by apply setup_active.
  - rewrite setup_inactive by done.
    destruct (MkdirAll_buildDir cfg w) as ((Hp & _) & _).
    unfold os.Symlink, pidLink. rewrite Hp.
    by destruct (by_pid w !! strconv.Itoa Getpid).
Qed.

Lemma updateLastLink_spec cfg (w : World) :
  updateLastLink' cfg w = (set_last (Some (elems (buildDir' cfg w))) w, None).
Proof. reflexivity. Qed.

Lemma sweepMarkers_spec cfg (w : World) :
  sameBuilds w (sweepMarkers cfg w) ∧
  ∀ name, by_pid (sweepMarkers cfg w) !! name =
          if processExists name w then by_pid w !! name else None.
Proof.
  destruct (sweepMarkers_fold (os.ReadDir (pidsDir cfg) w) w) as [H1 H2].
  split; [exact H1|]. intros name.
  change (foldl _ w (os.ReadDir (pidsDir cfg) w)) with (sweepMarkers cfg w) in H2.
  rewrite H2. destruct (processExists name w) eqn:E.
  - rewrite decide_False; [done|]. intros [_ ?]. congruence.
  - destruct (decide _) as [|Hn]; [done|].
    apply not_elem_of_dom. intros Hd. apply Hn. split; [|done].
    cbn. by apply elem_of_elements.
Qed.

Lemma sweepBuilds_spec cfg (w : World) :
  sameMarkers w (sweepBuilds cfg w) ∧
  cwd (sweepBuilds cfg w) = cwd w ∧ source (sweepBuilds cfg w) = source w ∧
  (∀ d, kept w d → by_hash (sweepBuilds cfg w) !! d = by_hash w !! d) ∧
  (∀ d, ¬ kept w d → by_hash (sweepBuilds cfg w) !! d = None).
Proof.
  destruct (sweepBuilds_fold cfg (os.ReadDir (buildsDir cfg) w) w)
    as (H1 & H2 & H3 & H4 & H5).
  change (foldl _ w (os.ReadDir (buildsDir cfg) w)) with (sweepBuilds cfg w) in *.
  split_and!; try done.
  - intros d Hd. apply H4. by right.
  - intros d Hd.
    destruct (by_hash w !! d) as [m|] eqn:E.
    + apply H5; [|done]. cbn. apply elem_of_elements, elem_of_dom. eauto.
    + rewrite <- E. apply H4. left. cbn. intros Hin.
      apply elem_of_elements, elem_of_dom in Hin as [? ?]. congruence.
Qed.

(** What [teardown] does, in the terms of the world it is given. *)
Lemma teardown_spec cfg (w : World) :
  let w' := (teardown' cfg w).1 in
  (teardown' cfg w).2 = None ∧
  last w' = last w ∧ alive w' = alive w ∧ cwd w' = cwd w ∧ source w' = source w ∧
  (∀ name, by_pid w' !! name =
           if decide (name = strconv.Itoa Getpid) then None
           else if processExists name w then by_pid w !! name else None) ∧
  (∀ d, kept w' d → by_hash w' !! d = by_hash w !! d) ∧
  (∀ d, ¬ kept w' d → by_hash w' !! d = None).
Proof.
  unfold teardown. cbn zeta. cbn [fst snd].
  set (w1 := os.RemoveAll (pidLink' cfg) w).
  assert (Hw1 : sameBuilds w w1) by done.
  destruct Hw1 as (Hh1 & Hl1 & Ha1 & Hc1 & Hs1).
  destruct (sweepMarkers_spec cfg w1) as [(Hh2 & Hl2 & Ha2 & Hc2 & Hsrc2) Hp2].
  set (w2 := sweepMarkers cfg w1) in *.
  destruct (sweepBuilds_spec cfg w2) as (Hs3 & Hc3 & Hsrc3 & Hk3 & Hr3).
  pose proof Hs3 as (Hp3 & Hl3 & Ha3).
  set (w3 := sweepBuilds cfg w2) in *.
  split_and!; try done; try congruence.
  - intros name. rewrite Hp3, Hp2.
    rewrite (processExists_alive name w w1) by done. unfold w1; cbn.
    destruct (decide (name = strconv.Itoa Getpid)) as [->|Hne].
    + rewrite lookup_delete_eq. by destruct (processExists _ _).
    + by rewrite lookup_delete_ne.
  - intros d Hd. rewrite Hk3, Hh2, Hh1; [done|]. by apply (kept_same w2 w3).
  - intros d Hd. apply Hr3. by rewrite <- (kept_same w2 w3).
Qed.

End CoordinatorFacts.

(** ** The containerizer leaves the links alone *)

Lemma sameLinks_refl w : sameLinks w w.
Proof. done. Qed.

Lemma sameLinks_trans w1 w2 w3 :
  sameLinks w1 w2 → sameLinks w2 w3 → sameLinks w1 w3.
Proof. intros (? & ? & ? & ?) (? & ? & ? & ?). split_and!; congruence. Qed.

Lemma WriteFile_links pl c w : sameLinks w (os.WriteFile pl c w).
Proof. destruct pl as [| | |[|]|]; done. Qed.

Lemma MkdirAll_links pl w : sameLinks w (os.MkdirAll pl w).
Proof.
  destruct pl as [| | |[|d p]|]; try done.
  cbn. by destruct (by_hash w !! d).
Qed.

Lemma Rename_links old new w : sameLinks w (os.Rename old new w).
Proof.
  unfold os.Rename. destruct (os.ReadFile old w) eqn:E; [|done].
  eapply sameLinks_trans; [|apply WriteFile_links].
  destruct old as [| | |[|d [|x p]]|]; try done.
Qed.

Section ContainerizeFacts.

Variable Fingerprint : fn.Function → list node → string * option error.
Variable SHA256 : file → v1.Hash * Z.
Variable LayerFromFile : file → error + v1.Layer.
Variable goLayerBuilder : languageLayerBuilder.

Local Abbreviation newData' := (newData Fingerprint LayerFromFile).
Local Abbreviation newConfig' := (newConfig Fingerprint SHA256).
Local Abbreviation newImage' := (newImage Fingerprint SHA256 goLayerBuilder).
Local Abbreviation images' := (images Fingerprint SHA256 goLayerBuilder).
Local Abbreviation containerize' :=
  (containerize Fingerprint SHA256 LayerFromFile goLayerBuilder).

Lemma hash_source cfg w w' :
  source w' = source w → hash Fingerprint cfg w' = hash Fingerprint cfg w.
Proof. unfold hash. by intros ->. Qed.

Lemma newData_links cfg w : sameLinks w (newData' cfg w).1.
Proof.
  unfold newData.
  set (w1 := os.WriteFile _ _ w).
  assert (H1 : sameLinks w w1) by apply WriteFile_links.
  destruct (LayerFromFile _) as [err|layer]; [exact H1|].
  destruct (v1.LSize layer) as [err|dls]; [exact H1|].
  destruct (v1.LDigest layer) as [err|dld]; [exact H1|].
  cbn [fst]. eapply sameLinks_trans; [exact H1|apply Rename_links].
Qed.

Lemma newConfig_links cfg p layers w : sameLinks w (newConfig' cfg p layers w).1.
Proof.
  unfold newConfig.
  destruct (diffIDs layers) as [err|ids]; [done|].
  destruct (SHA256 _) as [hash_ size]. cbn [fst].
  eapply sameLinks_trans; [apply WriteFile_links|apply Rename_links].
Qed.

Lemma newImage_links cfg dataDesc dataLayer p w :
  sameLinks w (newImage' cfg dataDesc dataLayer p w).1.
Proof.
  unfold newImage.
  destruct (newLanguageLayerBuilder _ _) as [[b|] [err|]]; try done.
  destruct (b cfg p) as [err|[execDesc execLayer]]; [done|].
  pose proof (newConfig_links cfg p [dataLayer; execLayer] w) as Hc.
  destruct (newConfig _ _ _ _ _ _) as [w1 [err|[configDesc config]]];
    cbn [fst] in *; [exact Hc|].
  destruct (SHA256 _) as [hash_ size]. cbn [fst].
  eapply sameLinks_trans; [exact Hc|].
  eapply sameLinks_trans; [apply WriteFile_links|apply Rename_links].
Qed.

Lemma images_links cfg dataDesc dataLayer ps acc w :
  sameLinks w (images' cfg dataDesc dataLayer ps acc w).1.
Proof.
  revert acc w. induction ps as [|p ps IH]; intros acc w; cbn [images].
  - done.
  - pose proof (newImage_links cfg dataDesc dataLayer p w) as H.
    destruct (newImage _ _ _ _ _ _ _ _) as [w1 [err|d]]; [exact H|].
    eapply sameLinks_trans; [exact H|apply IH].
Qed.

Lemma containerize_links cfg w : sameLinks w (containerize' cfg w).1.
Proof.
  unfold containerize.
  set (w1 := os.MkdirAll _ w).
  set (w2 := os.WriteFile _ _ w1).
  assert (H2 : sameLinks w w2).
  { eapply sameLinks_trans; [apply MkdirAll_links|apply WriteFile_links]. }
  pose proof (newData_links cfg w2) as H3.
  destruct (newData _ _ _ _) as [w3 [err|[dataDesc dataLayer]]]; cbn [fst] in *.
  { eapply sameLinks_trans; eauto. }
  pose proof (images_links cfg dataDesc dataLayer DefaultPlatforms [] w3) as H4.
  destruct (images _ _ _ _ _ _ _ _ _) as [w4 [err|descs]]; cbn [fst] in *.
  { eapply sameLinks_trans; [|exact H4]. eapply sameLinks_trans; eauto. }
  unfold newImageIndex. cbn [fst].
  eapply sameLinks_trans; [|apply WriteFile_links].
  eapply sameLinks_trans; [|exact H4]. eapply sameLinks_trans; eauto.
Qed.

End ContainerizeFacts.

(** ** Build *)

Section BuildFacts.

Variable Fingerprint : fn.Function → list node → string * option error.
Variable Getpid : Z.
Variable SHA256 : file → v1.Hash * Z.
Variable LayerFromFile : file → error + v1.Layer.
Variable goLayerBuilder : languageLayerBuilder.
Variable NewRepository : option error.
Variable signature : string → string → string → error + string.
Variable fsStat : string → option error.
Variable CopyFromFS : string → string → option error.
Variable now : Z.

Local Abbreviation setup' := (setup Fingerprint Getpid).
Local Abbreviation teardown' := (teardown Getpid).
Local Abbreviation containerize' :=
  (containerize Fingerprint SHA256 LayerFromFile goLayerBuilder).
Local Abbreviation build' :=
  (build Fingerprint SHA256 LayerFromFile goLayerBuilder NewRepository
         signature fsStat CopyFromFS).
Local Abbreviation Build' :=
  (Build Fingerprint Getpid SHA256 LayerFromFile goLayerBuilder NewRepository
         signature fsStat CopyFromFS now).
Local Abbreviation scaffold' := (scaffold Fingerprint signature fsStat CopyFromFS).

(** [build] returns the first error of its four steps, in their order. *)
Lemma build_error cfg w :
  (build' cfg w).2 =
    match NewRepository with
    | Some err => Some err
    | None =>
        match scaffold' cfg w with
        | Some err => Some err
        | None =>
            match (containerize' cfg w).2 with
            | Some err => Some err
            | None => None
            end
        end
    end.
Proof.
  unfold build. destruct NewRepository; [done|].
  destruct (scaffold _ _ _ _ _ _); [done|].
  destruct (containerize _ _ _ _ _ _) as [w1 [err|]]; done.
Qed.

Lemma build_links cfg w :
  let w' := (build' cfg w).1 in
  by_pid w' = by_pid w ∧ alive w' = alive w ∧ source w' = source w ∧
  last w' = match (build' cfg w).2 with
            | None => Some (elems (buildDir Fingerprint cfg w))
            | Some _ => last w
            end.
Proof.
  unfold build. cbn zeta. destruct NewRepository; [done|].
  destruct (scaffold _ _ _ _ _ _); [done|].
  pose proof (containerize_links Fingerprint SHA256 LayerFromFile goLayerBuilder cfg w)
    as (Hp & Hl & Ha & Hs).
  destruct (containerize _ _ _ _ _ _) as [w1 [err|]]; cbn [fst snd] in *; [done|].
  rewrite updateLastLink_spec. cbn [fst snd].
  split_and!; try done.
  cbn. unfold buildDir. by rewrite (hash_source Fingerprint cfg w w1).
Qed.

Lemma Build_setup_fails b ctx f w w1 err :
  setup' (mkBuildConfig ctx f now (verbose b) "") w = (w1, Some err) →
  Build' b ctx f w = (w1, Some err).
Proof. unfold Build. by intros ->. Qed.

Lemma Build_setup_ok b ctx f w w1 :
  let cfg := mkBuildConfig ctx f now (verbose b) "" in
  setup' cfg w = (w1, None) →
  Build' b ctx f w = ((teardown' cfg (build' cfg w1).1).1, (build' cfg w1).2).
Proof. cbn zeta. unfold Build. intros ->. by destruct (build _ _ _ _ _ _ _ _ _ _). Qed.

Lemma setup_links cfg w :
  let r := setup' cfg w in
  last r.1 = last w ∧ alive r.1 = alive w ∧ source r.1 = source w ∧
  cwd r.1 = cwd w.
Proof.
  cbn zeta. pose proof (setup_cases Fingerprint Getpid cfg w) as H.
  cbn zeta in H.
  destruct (MkdirAll_buildDir Fingerprint cfg w) as ((Hp & Hl & Ha) & Hc & Hs & _).
  destruct (isActive _ _ _); [by rewrite H|].
  destruct (by_pid w !! strconv.Itoa Getpid); by rewrite H.
Qed.

End BuildFacts.

(** * The claims *)

Lemma buildDir_elems Fingerprint cfg w :
  Builds (elems (buildDir Fingerprint cfg w)) = buildDir Fingerprint cfg w.
Proof. reflexivity. Qed.

Lemma hash_fresh_cfg Fingerprint ctx ctx' f t t' v v' w w' :
  source w' = source w →
  hash Fingerprint (mkBuildConfig ctx' f t' v' "") w' =
  hash Fingerprint (mkBuildConfig ctx f t v "") w.
Proof. unfold hash. cbn. by intros ->. Qed.

Lemma buildDir_fresh_cfg Fingerprint ctx ctx' f t t' v v' w w' :
  source w' = source w →
  buildDir Fingerprint (mkBuildConfig ctx' f t' v' "") w' =
  buildDir Fingerprint (mkBuildConfig ctx f t v "") w.
Proof. unfold buildDir, hash. cbn. by intros ->. Qed.

(** A live marker that resolves to the build directory makes [Build]
    return the error of a build in progress, and leave the world as it
    is. *)
Lemma Build_in_progress Fingerprint pid SHA256 LayerFromFile goLayerBuilder
    NewRepository signature fsStat CopyFromFS now b ctx f w :
  let cfg := mkBuildConfig ctx f now (verbose b) "" in
  isActive cfg (buildDir Fingerprint cfg w) w = true →
  Build Fingerprint pid SHA256 LayerFromFile goLayerBuilder NewRepository
        signature fsStat CopyFromFS now b ctx f w =
    (w, Some (inProgress (render (fn.Root f) (buildDir Fingerprint cfg w)))).
Proof.
  cbn zeta. intros H. apply Build_setup_fails. by rewrite setup_active.
Qed.

(** C1 (amended).  When a marker of a process that exists resolves to the
    build directory of the function's hash, [Build] returns the [BuildErr]
    of a build in progress and the world is unchanged.  Otherwise, and
    when no marker named after the current process is there already,
    [setup] succeeds: the build directory exists afterwards, what was in
    [by-hash] before is still there, and the only new marker is the one
    named after the current process, pointing at the build directory.  As
    long as that marker, the directory and the process are there (the
    process identifier being an int), a [Build] of the same function by any
    process returns the [BuildErr] of a build in progress. *)
Theorem setup_in_progress_or_marks Fingerprint pid SHA256 LayerFromFile
    goLayerBuilder NewRepository signature fsStat CopyFromFS now b ctx f w :
  let cfg := mkBuildConfig ctx f now (verbose b) "" in
  let dir := buildDir Fingerprint cfg w in
  let busy := Some (inProgress (render (fn.Root f) dir)) in
  (isActive cfg dir w = true →
     Build Fingerprint pid SHA256 LayerFromFile goLayerBuilder NewRepository
           signature fsStat CopyFromFS now b ctx f w = (w, busy))
  ∧
  (isActive cfg dir w = false →
   by_pid w !! strconv.Itoa pid = None →
     ∃ w1, setup Fingerprint pid cfg w = (w1, None) ∧
       os.dir_exists w1 (elems dir) = true ∧
       (∀ d files, by_hash w !! d = Some files → by_hash w1 !! d = Some files) ∧
       by_pid w1 = <[strconv.Itoa pid := elems dir]> (by_pid w) ∧
       last w1 = last w ∧ alive w1 = alive w ∧ source w1 = source w ∧
       ∀ pid2 now2 b2 ctx2 w2,
         (strconv.minInt ≤ pid ≤ strconv.maxInt)%Z →
         by_pid w2 !! strconv.Itoa pid = Some (elems dir) →
         os.dir_exists w2 (elems dir) = true →
         alive w2 pid = true →
         source w2 = source w →
         Build Fingerprint pid2 SHA256 LayerFromFile goLayerBuilder NewRepository
               signature fsStat CopyFromFS now2 b2 ctx2 f w2 = (w2, busy)).
Proof.
  cbn zeta. split; [apply Build_in_progress|].
  intros Hact Hown.
  pose proof (setup_cases Fingerprint pid (mkBuildConfig ctx f now (verbose b) "") w) as H.
  cbn zeta in H. rewrite Hact, Hown in H.
  destruct (MkdirAll_buildDir Fingerprint (mkBuildConfig ctx f now (verbose b) "") w)
    as ((Hp & Hl & Ha) & Hc & Hs & Hex & Hkeep & _).
  eexists. split; [exact H|]. split_and!; try done.
  - cbn [by_pid set_by_pid]. by rewrite Hp.
  - intros pid2 now2 b2 ctx2 w2 Hint Hm Hd Hal Hsrc.
    rewrite <- (buildDir_fresh_cfg Fingerprint ctx ctx2 f now now2 (verbose b) (verbose b2) w w2 Hsrc).
    apply Build_in_progress.
    rewrite (buildDir_fresh_cfg Fingerprint ctx ctx2 f now now2 (verbose b) (verbose b2) w w2 Hsrc).
    rewrite <- buildDir_elems. apply isActive_true.
    eexists. split; [|exact Hd]. split; [exact Hm|].
    by rewrite processExists_Itoa.
Qed.

Lemma setup_in_progress_or_marks_witness :
  let Build' pid :=
    Build sample.Fingerprint pid sample.SHA256 sample.LayerFromFile
          sample.goLayerBuilder None sample.signature sample.fsStat
          sample.CopyFromFS in
  let busy :=
    Some (inProgress "/home/alice/f/.func/builds/by-hash/abc") in
  Build' 200 1700000000 sample.b Background sample.f sample.building
    = (sample.building, busy)
  ∧ ∃ w1,
      setup sample.Fingerprint 100
            (mkBuildConfig Background sample.f 1700000000 false "") sample.fresh
        = (w1, None)
      ∧ by_pid w1 = {[ "100" := ["abc"] ]}
      ∧ Build' 200 1700000001 sample.b Background sample.f w1 = (w1, busy).
Proof.
  cbn zeta. split.
  - apply (setup_in_progress_or_marks sample.Fingerprint 200 sample.SHA256
             sample.LayerFromFile sample.goLayerBuilder None sample.signature
             sample.fsStat sample.CopyFromFS 1700000000 sample.b Background
             sample.f sample.building).
    vm_compute. reflexivity.
  - destruct (setup_in_progress_or_marks sample.Fingerprint 100 sample.SHA256
             sample.LayerFromFile sample.goLayerBuilder None sample.signature
             sample.fsStat sample.CopyFromFS 1700000000 sample.b Background
             sample.f sample.fresh) as [_ H].
    destruct H as (w1 & H1 & H2 & H3 & H4 & H5 & Ha & Hs & H6).
    + vm_compute. reflexivity.
    + vm_compute. reflexivity.
    + exists w1. split; [exact H1|]. split; [exact H4|].
      apply H6.
      * unfold strconv.minInt, strconv.maxInt. lia.
      * rewrite H4. vm_compute. reflexivity.
      * exact H2.
      * rewrite Ha. reflexivity.
      * exact Hs.
Defined.

(** C1, as stated, fails where a marker named after the current process
    is there already: no live marker resolves to the build directory, and
    yet [setup] returns an error and no marker points at the build
    directory. *)
Lemma setup_own_marker_blocks :
  let cfg := mkBuildConfig Background sample.f 1700000000 false "" in
  let dir := buildDir sample.Fingerprint cfg sample.marked in
  let r := setup sample.Fingerprint 200 cfg sample.marked in
  isActive cfg dir sample.marked = false
  ∧ r.2 ≠ None
  ∧ by_pid r.1 !! strconv.Itoa 200 ≠ Some (elems dir)
  ∧ ∀ name, by_pid r.1 !! name ≠ Some (elems dir).
Proof.
  cbn zeta. split_and!.
  - vm_compute. reflexivity.
  - vm_compute. discriminate.
  - vm_compute. discriminate.
  - intros name.
    assert (H : by_pid (setup sample.Fingerprint 200
                (mkBuildConfig Background sample.f 1700000000 false "")
                sample.marked).1 = {[ "200" := ["old"] ]}) by reflexivity.
    rewrite H. intros Hn. apply lookup_singleton_Some in Hn as [_ Hn].
    discriminate.
Qed.

(** No live marker points at a directory: it is not that of a build in
    progress.  This is the case of a build for a hash that no process is
    building, whatever the marker of the current process points at. *)
Lemma isActive_false cfg p (w : World) :
  (∀ name q, liveMarker w name q → q ≠ p) →
  isActive cfg (Builds p) w = false.
Proof.
  intros H. destruct (isActive cfg (Builds p) w) eqn:E; [|done].
  apply isActive_true in E as (name & Hl & _). by destruct (H name p Hl).
Qed.

(** C10.  The marker of a build is named after the process identifier
    alone, whatever the function and its hash.  When a marker with that
    name is there, and [setup] gets as far as making the link (no live
    marker resolves to the build directory), the link cannot be made:
    [setup] returns the [*os.LinkError] of [os.Symlink] with the errno of
    an existing file, which is not a [BuildErr]; the markers are as they
    were. *)
Theorem own_marker_file_exists Fingerprint pid cfg w :
  is_Some (by_pid w !! strconv.Itoa pid) →
  isActive cfg (buildDir Fingerprint cfg w) w = false →
  (∀ cfg', pidLink pid cfg' = Pid (strconv.Itoa pid)) ∧
  ∃ err,
    (setup Fingerprint pid cfg w).2 = Some err ∧
    err = LinkError "symlink" (path [".."; "by-hash"; hash Fingerprint cfg w])
                    (render (fn.Root (f cfg)) (pidLink pid cfg)) EEXIST ∧
    isBuildErr err = false ∧
    by_pid (setup Fingerprint pid cfg w).1 = by_pid w.
Proof.
  intros [p Hp] Hact. split; [done|].
  pose proof (setup_cases Fingerprint pid cfg w) as H. cbn zeta in H.
  rewrite Hact, Hp in H. rewrite H. eexists. split_and!; try done.
  by destruct (MkdirAll_buildDir Fingerprint cfg w) as ((? & _) & _).
Qed.

Lemma own_marker_file_exists_witness :
  let cfg := mkBuildConfig Background sample.f 1700000000 false "" in
  ∃ err,
    (setup sample.Fingerprint 200 cfg sample.marked).2 = Some err ∧
    Error err =
      "symlink ../by-hash/abc /home/alice/f/.func/builds/by-pid/200: file exists" ∧
    isBuildErr err = false.
Proof.
  cbn zeta.
  destruct (own_marker_file_exists sample.Fingerprint 200
              (mkBuildConfig Background sample.f 1700000000 false "")
              sample.marked) as [_ (err & H1 & H2 & H3 & _)].
  - vm_compute. eauto.
  - vm_compute. reflexivity.
  - exists err. split; [exact H1|]. split; [|exact H3].
    rewrite H2. vm_compute. reflexivity.
Defined.

(** C2 (amended).  [teardown] runs on every return of [Build] that
    follows a successful [setup], whatever the outcome of the build, and
    on no other: a [Build] whose [setup] fails returns at once.  It does
    exactly this: the marker of the current process is removed; every
    marker whose name is not that of a process that exists is removed,
    and the markers of the other processes that exist stay as they are; a
    directory of [by-hash] that is the target of the last link or of a
    marker that is left stays as it is, and every other one is removed.
    The last link is not touched. *)
Theorem teardown_after_setup_exact Fingerprint pid SHA256 LayerFromFile
    goLayerBuilder NewRepository signature fsStat CopyFromFS now b ctx f w :
  let cfg := mkBuildConfig ctx f now (verbose b) "" in
  let Build' :=
    Build Fingerprint pid SHA256 LayerFromFile goLayerBuilder NewRepository
          signature fsStat CopyFromFS now in
  let build' :=
    build Fingerprint SHA256 LayerFromFile goLayerBuilder NewRepository
          signature fsStat CopyFromFS in
  (∀ w0, let w' := (teardown pid cfg w0).1 in
     by_pid w' !! strconv.Itoa pid = None ∧
     (∀ name, processExists name w0 = false → by_pid w' !! name = None) ∧
     (∀ name, name ≠ strconv.Itoa pid → processExists name w0 = true →
              by_pid w' !! name = by_pid w0 !! name) ∧
     (∀ d, last w' = Some [d] ∨ (∃ name, liveMarker w' name [d]) →
           by_hash w' !! d = by_hash w0 !! d) ∧
     (∀ d, ¬ (last w' = Some [d] ∨ (∃ name, liveMarker w' name [d])) →
           by_hash w' !! d = None) ∧
     last w' = last w0)
  ∧ (∀ w1, setup Fingerprint pid cfg w = (w1, None) →
       Build' b ctx f w = ((teardown pid cfg (build' cfg w1).1).1, (build' cfg w1).2))
  ∧ (∀ w1 err, setup Fingerprint pid cfg w = (w1, Some err) →
       Build' b ctx f w = (w1, Some err)).
Proof.
  cbn zeta. split_and!.
  - intros w0.
    destruct (teardown_spec pid (mkBuildConfig ctx f now (verbose b) "") w0)
      as (_ & Hl & Ha & _ & _ & Hp & Hk & Hr).
    cbn zeta in *. split_and!; try done.
    + rewrite Hp. by rewrite decide_True.
    + intros name Hn. rewrite Hp, Hn. by case_decide.
    + intros name Hne Hn. rewrite Hp, Hn. by rewrite decide_False.
  - intros w1 H. by apply Build_setup_ok.
  - intros w1 err H. by apply Build_setup_fails.
Qed.

(** C2, as stated, fails on the return of [Build] that follows a failed
    [setup]: the build is refused because the process 100 is building the
    same hash, and the marker of the process 999, which does not exist,
    and its directory are still there when [Build] has returned. *)
Lemma teardown_skipped_on_setup_failure :
  let r :=
    Build sample.Fingerprint 200 sample.SHA256 sample.LayerFromFile
          sample.goLayerBuilder None sample.signature sample.fsStat
          sample.CopyFromFS 1700000000 sample.b Background sample.f
          sample.building in
  r.2 ≠ None
  ∧ processExists "999" sample.building = false
  ∧ by_pid r.1 !! "999" = Some ["old"]
  ∧ last r.1 ≠ Some ["old"]
  ∧ is_Some (by_hash r.1 !! "old").
Proof.
  cbn zeta. split_and!.
  - vm_compute. discriminate.
  - vm_compute. reflexivity.
  - vm_compute. reflexivity.
  - vm_compute. discriminate.
  - vm_compute. eauto.
Qed.


(** The sample function builds: no error, the link made, the marker
    gone, one manifest per default platform in the index. *)
Example Build_sample :
  let r :=
    Build sample.Fingerprint 200 sample.SHA256 sample.LayerFromFile
          sample.goLayerBuilder None sample.signature sample.fsStat
          sample.CopyFromFS 1700000000 sample.b Background sample.f
          sample.fresh in
  r.2 = None ∧ last r.1 = Some ["abc"] ∧ by_pid r.1 = ∅ ∧
  ∃ index, os.ReadFile (Builds ["abc"; "oci"; "index.json"]) r.1
             = Some (JSONIndex index)
           ∧ length (v1.iManifests index) = 4%nat.
Proof.
  cbn zeta. split_and!.
  - vm_compute. reflexivity.
  - vm_compute. reflexivity.
  - apply map_eq. intros i. vm_compute. reflexivity.
  - eexists. split; [vm_compute; reflexivity|]. reflexivity.
Qed.

(** ** The containerizer *)

Lemma blob_place (x y : string) :
  ∃ d rest, below [x; "oci"; "blobs"; "sha256"; y] = Builds (d :: rest).
Proof. destruct x, y; cbn; eauto. Qed.

Lemma ReadFile_WriteFile d rest c w :
  os.ReadFile (Builds (d :: rest)) (os.WriteFile (Builds (d :: rest)) c w) = Some c.
Proof. cbn. rewrite lookup_insert_eq. cbn. by rewrite lookup_insert_eq. Qed.

Lemma ReadFile_Rename_Cwd name d rest c w :
  cwd w !! name = Some c →
  os.ReadFile (Builds (d :: rest)) (os.Rename (Cwd name) (Builds (d :: rest)) w) = Some c.
Proof.
  intros H. unfold os.Rename. cbn [os.ReadFile]. rewrite H.
  apply ReadFile_WriteFile.
Qed.

Lemma diffIDs_two a b ids :
  diffIDs [a; b] = inr ids →
  ∃ da db, v1.LDiffID a = inr da ∧ v1.LDiffID b = inr db ∧ ids = [da; db].
Proof.
  cbn. destruct (v1.LDiffID a) as [|da]; [done|].
  destruct (v1.LDiffID b) as [|db]; [done|].
  intros [= <-]. eauto.
Qed.

(** Every descriptor that the loop of [containerize] adds is the one
    that [newImage] returns for the platform of its turn, with the data
    layer handed to the loop. *)
Lemma images_spec Fingerprint SHA256 goLayerBuilder cfg dataDesc dataLayer
    ps acc w w' descs :
  images Fingerprint SHA256 goLayerBuilder cfg dataDesc dataLayer ps acc w
    = (w', inr descs) →
  ∃ new, descs = (acc ++ new)%list ∧
    Forall2 (fun p d => ∃ wa wb,
               newImage Fingerprint SHA256 goLayerBuilder cfg dataDesc dataLayer p wa
                 = (wb, inr d))
            ps new.
Proof.
  revert acc w. induction ps as [|p ps IH]; intros acc w; cbn [images].
  - intros [= <- <-]. exists []. split; [by rewrite app_nil_r|constructor].
  - destruct (newImage _ _ _ _ _ _ _ _) as [w1 [err|d]] eqn:E; [done|].
    intros H. apply IH in H as (new & -> & Hall).
    exists (d :: new). split; [by rewrite <- app_assoc|].
    constructor; eauto.
Qed.

(** C7.  [newLanguageLayerBuilder] returns a builder, and no error, when
    the runtime is go, and only then.  For python, node and rust it
    returns an error that says that the language is not yet supported,
    with a wording of its own for each; for any other runtime it returns
    the error that the runtime is not a recognized language.  The four
    wordings differ from one another.  A runtime other than go is never
    passed over in silence: [newImage] returns the error and leaves the
    world as it is. *)
Theorem language_layer_builder_go_only Fingerprint SHA256 goLayerBuilder cfg :
  let r := newLanguageLayerBuilder goLayerBuilder cfg in
  let runtime := fn.Runtime (f cfg) in
  let python := errorString "Python functions are not yet supported by the host builder." in
  let node := errorString "Node functions are not yet supported by the host builder." in
  let rust := errorString "Rust functions are not yet supported by the host builder." in
  let other := errorString ("The language runtime '" ++ runtime
                   ++ "' is not a recognized language by the host builder.") in
  (runtime = "go" ↔ r = (Some goLayerBuilder, None))
  ∧ (runtime = "python" → r = (None, Some python))
  ∧ (runtime = "node" → r = (None, Some node))
  ∧ (runtime = "rust" → r = (None, Some rust))
  ∧ (runtime ≠ "go" → runtime ≠ "python" → runtime ≠ "node" → runtime ≠ "rust" →
       r = (None, Some other))
  ∧ (is_Some r.1 ↔ runtime = "go")
  ∧ (r.2 = None ↔ runtime = "go")
  ∧ python ≠ node ∧ python ≠ rust ∧ node ≠ rust
  ∧ other ≠ python ∧ other ≠ node ∧ other ≠ rust
  ∧ (runtime ≠ "go" → ∀ dataDesc dataLayer p w,
       ∃ err, r.2 = Some err ∧
         newImage Fingerprint SHA256 goLayerBuilder cfg dataDesc dataLayer p w
           = (w, inl err)).
Proof.
  cbn zeta. unfold newImage, newLanguageLayerBuilder.
  destruct (String.eqb_spec (fn.Runtime (f cfg)) "go") as [->|Hgo].
  { cbn. split_and!; try done; try (intros [=]). }
  destruct (String.eqb_spec (fn.Runtime (f cfg)) "python") as [Hpy|Hpy].
  { rewrite Hpy. cbn. split_and!; try done; try (by intros [=]); try (by intros [? [=]]).
    intros _ ? ? ? ?. eauto. }
  destruct (String.eqb_spec (fn.Runtime (f cfg)) "node") as [Hno|Hno].
  { rewrite Hno. cbn. split_and!; try done; try (by intros [=]); try (by intros [? [=]]).
    intros _ ? ? ? ?. eauto. }
  destruct (String.eqb_spec (fn.Runtime (f cfg)) "rust") as [Hru|Hru].
  { rewrite Hru. cbn. split_and!; try done; try (by intros [=]); try (by intros [? [=]]).
    intros _ ? ? ? ?. eauto. }
  cbn [fst snd]. split_and!; try done; try (by intros [=]); try (by intros [? [=]]).
  intros _ ? ? ? ?. eauto.
Qed.

Lemma newConfig_ok Fingerprint SHA256 cfg p layers w w' desc config :
  newConfig Fingerprint SHA256 cfg p layers w = (w', inr (desc, config)) →
  ∃ ids, diffIDs layers = inr ids ∧
    config =
      v1.mkConfigFile (t cfg) (v1.Architecture p) (v1.OS p) (v1.OSVersion p)
        (v1.Variant p)
        (v1.mkConfig {[ "8080/tcp" ]} (fn.Slice (fn.Envs (fn.Run (f cfg))))
           [ "/func/f" ] "/func/" "SIGKILL"
           (list_to_set (omap fn.Path (fn.Volumes (fn.Run (f cfg))))))
        (v1.mkRootFS "layers" ids) ∧
    desc = v1.mkDescriptor types.OCIConfigJSON (SHA256 (JSONConfig config)).2
             (SHA256 (JSONConfig config)).1 None ∧
    w' = os.Rename (below [hash Fingerprint cfg w; "config.json"])
           (below [hash Fingerprint cfg w; "oci"; "blobs"; "sha256";
                   v1.Hex (v1.Digest desc)])
           (os.WriteFile (below [hash Fingerprint cfg w; "config.json"])
                         (JSONConfig config) w).
Proof.
  unfold newConfig. destruct (diffIDs layers) as [err|ids]; [done|].
  destruct (SHA256 _) as [hash_ size] eqn:E. intros H.
  injection H as Hw <- <-. exists ids. rewrite E. split_and!; done.
Qed.

(** What a successful [containerize] has done: the data layer, the
    images of the default platforms made with it, and the index of their
    descriptors in [index.json]. *)
Lemma containerize_ok Fingerprint SHA256 LayerFromFile goLayerBuilder cfg w w' :
  containerize Fingerprint SHA256 LayerFromFile goLayerBuilder cfg w = (w', None) →
  ∃ w2 w3 w4 dataDesc dataLayer imageDescs,
    source w2 = source w ∧
    newData Fingerprint LayerFromFile cfg w2 = (w3, inr (dataDesc, dataLayer)) ∧
    images Fingerprint SHA256 goLayerBuilder cfg dataDesc dataLayer
           DefaultPlatforms [] w3 = (w4, inr imageDescs) ∧
    os.ReadFile (below [hash Fingerprint cfg w; "oci"; "index.json"]) w'
      = Some (JSONIndex (v1.mkIndexManifest 2 types.OCIImageIndex imageDescs)).
Proof.
  unfold containerize.
  set (w2 := os.WriteFile _ _ _).
  assert (Hs2 : source w2 = source w).
  { unfold w2.
    destruct (WriteFile_links (below [hash Fingerprint cfg w; "oci"; "oci-layout"])
                (Text ociLayout)
                (os.MkdirAll (blobsDir Fingerprint cfg w) w)) as (_ & _ & _ & Hs).
    destruct (MkdirAll_links (blobsDir Fingerprint cfg w) w) as (_ & _ & _ & Hs').
    congruence. }
  destruct (newData _ _ _ w2) as [w3 [err|[dd dl]]] eqn:Ed; [done|].
  destruct (images _ _ _ _ _ _ _ _ w3) as [w4 [err|descs]] eqn:Ei; [done|].
  unfold newImageIndex. intros [= <-].
  exists w2, w3, w4, dd, dl, descs. split_and!; try done.
  assert (Hh : hash Fingerprint cfg w4 = hash Fingerprint cfg w).
  { apply hash_source.
    pose proof (images_links Fingerprint SHA256 goLayerBuilder cfg dd dl
                  DefaultPlatforms [] w3) as (_ & _ & _ & H4).
    rewrite Ei in H4.
    pose proof (newData_links Fingerprint LayerFromFile cfg w2) as (_ & _ & _ & H3).
    rewrite Ed in H3. cbn [fst] in *. congruence. }
  assert (∃ d rest, below [hash Fingerprint cfg w; "oci"; "index.json"]
                    = Builds (d :: rest)) as (d & rest & E).
  { destruct (hash Fingerprint cfg w); cbn; eauto. }
  rewrite Hh. unfold below in E |- *. injection E as E. rewrite E.
  apply (ReadFile_WriteFile d rest).
Qed.

(** C6.  The manifest that [newImage] stores for a platform, at the path
    of its digest in the blobs, has one config descriptor, that of the
    config [newConfig] has written for the platform, and two layer
    descriptors, that of the data layer first and that of the layer of
    the language builder second.  The diffIDs of that config are the
    answers of [DiffID] of the same two layers, in the same order.  In
    [containerize] every image of the index is made by [newImage] with the
    descriptor and the layer that [newData] has returned. *)
Theorem manifest_layers_data_then_exec Fingerprint SHA256 LayerFromFile
    goLayerBuilder cfg :
  (∀ dataDesc dataLayer p w w' imageDesc,
     newImage Fingerprint SHA256 goLayerBuilder cfg dataDesc dataLayer p w
       = (w', inr imageDesc) →
     ∃ b execDesc execLayer w1 configDesc config dataDiff execDiff,
       newLanguageLayerBuilder goLayerBuilder cfg = (Some b, None) ∧
       b cfg p = inr (execDesc, execLayer) ∧
       newConfig Fingerprint SHA256 cfg p [dataLayer; execLayer] w
         = (w1, inr (configDesc, config)) ∧
       let image := v1.mkManifest 2 types.OCIManifestSchema1 configDesc
                                  [dataDesc; execDesc] in
       v1.Digest imageDesc = (SHA256 (JSONManifest image)).1 ∧
       v1.Platform_ imageDesc = Some p ∧
       os.ReadFile (below [hash Fingerprint cfg w; "oci"; "blobs"; "sha256";
                           v1.Hex (v1.Digest imageDesc)]) w'
         = Some (JSONManifest image) ∧
       v1.Digest configDesc = (SHA256 (JSONConfig config)).1 ∧
       v1.LDiffID dataLayer = inr dataDiff ∧
       v1.LDiffID execLayer = inr execDiff ∧
       v1.DiffIDs (v1.cfRootFS config) = [dataDiff; execDiff])
  ∧
  (∀ w w', containerize Fingerprint SHA256 LayerFromFile goLayerBuilder cfg w
             = (w', None) →
     ∃ w2 w3 dataDesc dataLayer imageDescs,
       newData Fingerprint LayerFromFile cfg w2 = (w3, inr (dataDesc, dataLayer)) ∧
       os.ReadFile (below [hash Fingerprint cfg w; "oci"; "index.json"]) w'
         = Some (JSONIndex (v1.mkIndexManifest 2 types.OCIImageIndex imageDescs)) ∧
       Forall2 (fun p d => ∃ wa wb,
                  newImage Fingerprint SHA256 goLayerBuilder cfg dataDesc
                           dataLayer p wa = (wb, inr d))
               DefaultPlatforms imageDescs).
Proof.
  split.
  - intros dataDesc dataLayer p w w' imageDesc. unfold newImage.
    destruct (newLanguageLayerBuilder _ _) as [[b|] [err|]] eqn:Eb; try done.
    destruct (b cfg p) as [err|[execDesc execLayer]] eqn:Ee; [done|].
    destruct (newConfig _ _ _ _ _ _) as [w1 [err|[configDesc config]]] eqn:Ec;
      [done|].
    destruct (SHA256 (JSONManifest _)) as [hash_ size] eqn:Es.
    intros [= <- <-].
    destruct (newConfig_ok _ _ _ _ _ _ _ _ _ Ec) as (ids & Hids & Hcfg & Hdesc & _).
    destruct (diffIDs_two _ _ _ Hids) as (da & db & Ha & Hb & ->).
    exists b, execDesc, execLayer, w1, configDesc, config, da, db.
    cbn zeta. rewrite Es. cbn [fst snd v1.Digest v1.Platform_].
    split_and!; try done.
    + destruct (blob_place (hash Fingerprint cfg w) (v1.Hex hash_))
        as (d & rest & ->).
      apply ReadFile_Rename_Cwd. cbn. apply lookup_insert_eq.
    + by rewrite Hdesc.
    + by rewrite Hcfg.
  - intros w w' H.
    apply containerize_ok in H
      as (w2 & w3 & w4 & dataDesc & dataLayer & descs & _ & Hd & Hi & Hr).
    apply images_spec in Hi as (new & -> & Hall). cbn [app] in *.
    exists w2, w3, dataDesc, dataLayer, new. done.
Qed.

Lemma manifest_layers_data_then_exec_witness :
  let cfg := mkBuildConfig Background sample.f 1700000000 false "" in
  let p := v1.mkPlatform "linux" "amd64" "" "" in
  let dataDesc :=
    v1.mkDescriptor types.OCILayer 10 (v1.mkHash "sha256" "gz-data") None in
  let r := newImage sample.Fingerprint sample.SHA256 sample.goLayerBuilder cfg
                    dataDesc (sample.layer "data") p sample.fresh in
  ∃ imageDesc image config,
    r.2 = inr imageDesc ∧
    os.ReadFile (below ["abc"; "oci"; "blobs"; "sha256";
                        v1.Hex (v1.Digest imageDesc)]) r.1
      = Some (JSONManifest image) ∧
    v1.Digest <$> v1.mLayers image
      = [v1.mkHash "sha256" "gz-data"; v1.mkHash "sha256" "gz-exec-linux-amd64"] ∧
    v1.Digest (v1.mConfig image) = (sample.SHA256 (JSONConfig config)).1 ∧
    v1.DiffIDs (v1.cfRootFS config)
      = [v1.mkHash "sha256" "tar-data"; v1.mkHash "sha256" "tar-exec-linux-amd64"].
Proof.
  cbn zeta.
  set (cfg := mkBuildConfig Background sample.f 1700000000 false "").
  set (p := v1.mkPlatform "linux" "amd64" "" "").
  set (dataDesc := v1.mkDescriptor types.OCILayer 10 (v1.mkHash "sha256" "gz-data") None).
  destruct (newImage sample.Fingerprint sample.SHA256 sample.goLayerBuilder cfg
              dataDesc (sample.layer "data") p sample.fresh)
    as [w' [err|imageDesc]] eqn:E; [vm_compute in E; discriminate|].
  destruct (proj1 (manifest_layers_data_then_exec sample.Fingerprint sample.SHA256
                     sample.LayerFromFile sample.goLayerBuilder cfg)
              dataDesc (sample.layer "data") p sample.fresh w' imageDesc E)
    as (b & execDesc & execLayer & w1 & configDesc & config & dataDiff & execDiff
        & Hb & He & Hc & Hd & Hp & Hr & Hcd & Hda & Hdb & Hids).
  exists imageDesc, (v1.mkManifest 2 types.OCIManifestSchema1 configDesc [dataDesc; execDesc]), config.
  cbn [fst snd]. split_and!.
  - reflexivity.
  - exact Hr.
  - injection Hb as <-. injection He as <- _. reflexivity.
  - exact Hcd.
  - rewrite Hids. injection Hda as <-. injection Hb as <-.
    injection He as _ <-. injection Hdb as <-. reflexivity.
Defined.

(** C4 (amended).  The config that [newConfig] writes for a platform
    declares exactly one exposed port, 8080/tcp, the command [/func/f],
    the working directory [/func/], the stop signal SIGKILL, as volumes
    the paths of the declared volumes that have one, and in its
    environment every declared run-time variable of the function
    ([Run.Envs], rendered NAME=VALUE); its creation time is the timestamp
    of the build. *)
Theorem image_config_fields Fingerprint SHA256 cfg p layers w w' desc config :
  newConfig Fingerprint SHA256 cfg p layers w = (w', inr (desc, config)) →
  let c := v1.cfConfig config in
  v1.ExposedPorts c = {[ "8080/tcp" ]} ∧
  size (v1.ExposedPorts c) = 1%nat ∧
  v1.Cmd c = [ "/func/f" ] ∧
  v1.WorkingDir c = "/func/" ∧
  v1.StopSignal c = "SIGKILL" ∧
  (∀ x, x ∈ v1.Volumes c ↔
        ∃ v, v ∈ fn.Volumes (fn.Run (f cfg)) ∧ fn.Path v = Some x) ∧
  (∀ e, e ∈ fn.Slice (fn.Envs (fn.Run (f cfg))) → e ∈ v1.Env c) ∧
  (∀ n v, fn.mkEnv (Some n) (Some v) ∈ fn.Envs (fn.Run (f cfg)) →
          n ++ "=" ++ v ∈ v1.Env c) ∧
  v1.Created config = t cfg ∧
  v1.cfOS config = v1.OS p ∧
  v1.cfArchitecture config = v1.Architecture p ∧
  os.ReadFile (below [hash Fingerprint cfg w; "oci"; "blobs"; "sha256";
                      v1.Hex (v1.Digest desc)]) w'
    = Some (JSONConfig config).
Proof.
  intros H.
  apply newConfig_ok in H as (ids & Hids & -> & -> & ->). cbn zeta.
  cbn [v1.cfConfig v1.ExposedPorts v1.Cmd v1.WorkingDir v1.StopSignal
       v1.Volumes v1.Env v1.Created v1.cfOS v1.cfArchitecture v1.Digest].
  split_and!; try done.
  - intros x. rewrite elem_of_list_to_set, list_elem_of_omap. done.
  - intros n v Hin. unfold fn.Slice. apply list_elem_of_omap.
    exists (fn.mkEnv (Some n) (Some v)). split; [done|]. reflexivity.
  - match goal with
    | |- context [below [_; "oci"; "blobs"; "sha256"; ?x]] =>
        destruct (blob_place (hash Fingerprint cfg w) x) as (d & rest & Hb)
    end.
    rewrite Hb. unfold os.Rename.
    assert (∃ d' rest', below [hash Fingerprint cfg w; "config.json"]
                        = Builds (d' :: rest')) as (d' & rest' & Hc).
    { destruct (hash Fingerprint cfg w); cbn; eauto. }
    rewrite Hc, ReadFile_WriteFile. apply ReadFile_WriteFile.
Qed.

Lemma image_config_fields_witness :
  let cfg := mkBuildConfig Background sample.f 1700000000 false "" in
  let p := v1.mkPlatform "linux" "arm64" "" "" in
  let r := newConfig sample.Fingerprint sample.SHA256 cfg p
                     [sample.layer "data"; sample.layer "exec"] sample.fresh in
  ∃ desc config,
    r.2 = inr (desc, config) ∧
    v1.Cmd (v1.cfConfig config) = [ "/func/f" ] ∧
    v1.Volumes (v1.cfConfig config) = {[ "/data" ]} ∧
    v1.Created config = 1700000000.
Proof.
  cbn zeta.
  set (cfg := mkBuildConfig Background sample.f 1700000000 false "").
  set (p := v1.mkPlatform "linux" "arm64" "" "").
  destruct (newConfig sample.Fingerprint sample.SHA256 cfg p
              [sample.layer "data"; sample.layer "exec"] sample.fresh)
    as [w' [err|[desc config]]] eqn:E; [vm_compute in E; discriminate|].
  destruct (image_config_fields sample.Fingerprint sample.SHA256 cfg p
              [sample.layer "data"; sample.layer "exec"] sample.fresh w' desc
              config E)
    as (_ & _ & Hcmd & _ & _ & Hvol & _ & _ & Hcreated & _).
  exists desc, config. cbn [fst snd]. split_and!; try done.
  apply set_eq. intros x. rewrite Hvol. cbn. rewrite elem_of_singleton.
  split.
  - intros (v & Hv & Hx).
    apply elem_of_cons in Hv as [->|Hv]; [by injection Hx|].
    apply elem_of_cons in Hv as [->|Hv]; [done|].
    by apply elem_of_nil in Hv.
  - intros ->. exists (fn.mkVolume (Some "/data")). split; [|done].
    apply elem_of_cons. by left.
Defined.

(** C4, as stated, fails: the sample function declares the build-time
    variable FOO and no run-time variable, and the environment of the
    config written for it is empty; it holds neither FOO=bar nor a
    variable for the time of creation. *)
Lemma image_config_env_not_build_envs :
  let cfg := mkBuildConfig Background sample.f 1700000000 false "" in
  let p := v1.mkPlatform "linux" "arm64" "" "" in
  let r := newConfig sample.Fingerprint sample.SHA256 cfg p
                     [sample.layer "data"; sample.layer "exec"] sample.fresh in
  fn.Slice (fn.BuildEnvs (fn.Build sample.f)) = [ "FOO=bar" ] ∧
  ∃ desc config,
    r.2 = inr (desc, config) ∧
    v1.Env (v1.cfConfig config) = [] ∧
    "FOO=bar" ∉ v1.Env (v1.cfConfig config).
Proof.
  cbn zeta. split; [reflexivity|].
  eexists _, _. split_and!.
  - vm_compute. reflexivity.
  - reflexivity.
  - cbn. apply not_elem_of_nil.
Qed.

(** ** The pusher *)


(** Once the sample function is built, [Push] writes its index to the
    registry and returns a digest. *)
Example Push_sample :
  let built :=
    (Build sample.Fingerprint 200 sample.SHA256 sample.LayerFromFile
           sample.goLayerBuilder None sample.signature sample.fsStat
           sample.CopyFromFS 1700000000 sample.b Background sample.f
           sample.fresh).1 in
  let r := Push sample.Registry sample.ParseReference sample.WriteIndex
                sample.IndexDigest sample.f built [] in
  r.1.1 = built ∧ length r.1.2 = 1%nat ∧ r.2 = ("sha256:other", None).
Proof. cbn zeta. split_and!; vm_compute; reflexivity. Qed.


(** ** Errors of a build *)



(** ** Two builds of the same source *)

(** Induction on a source tree, with the property at hand for every
    child of a directory. *)
Lemma node_Forall_ind (P : node → Prop) :
  (∀ name mode content, P (File name mode content)) →
  (∀ name mode children, Forall P children → P (Dir name mode children)) →
  ∀ info, P info.
Proof.
  intros HF HD. fix go 1. intros [name mode content|name mode children].
  - apply HF.
  - apply HD. induction children as [|c cs IH]; constructor; [apply go|apply IH].
Qed.

Section Rebuild.

Variable Fingerprint : fn.Function → list node → string * option error.
Variable SHA256 : file → v1.Hash * Z.
Variable LayerFromFile : file → error + v1.Layer.
Variable goLayerBuilder : languageLayerBuilder.

Local Abbreviation newData' := (newData Fingerprint LayerFromFile).
Local Abbreviation newConfig' := (newConfig Fingerprint SHA256).
Local Abbreviation newImage' := (newImage Fingerprint SHA256 goLayerBuilder).
Local Abbreviation images' := (images Fingerprint SHA256 goLayerBuilder).
Local Abbreviation containerize' :=
  (containerize Fingerprint SHA256 LayerFromFile goLayerBuilder).

(** Every header of the data layer carries the timestamp of the build. *)
Lemma walk_ModTime t dir info :
  Forall (fun e => tar.ModTime e.1 = t) (walk t dir info).
Proof.
  revert dir. induction info as [name mode content|name mode children IH]
    using node_Forall_ind; intros dir; cbn [walk].
  - destruct (isIgnored _); repeat constructor.
  - destruct (isIgnored _); [constructor|]. constructor; [done|].
    induction IH as [|c cs Hc _ IHcs]; cbn [flat_map]; [constructor|].
    apply Forall_app. split; [apply Hc|apply IHcs].
Qed.

(** What the steps of the containerizer return does not depend on the
    world, apart from the source tree. *)
Lemma newConfig_value cfg p layers w w0 :
  (newConfig' cfg p layers w).2 = (newConfig' cfg p layers w0).2.
Proof.
  unfold newConfig. destruct (diffIDs layers); [done|].
  by destruct (SHA256 _).
Qed.

Lemma newImage_value cfg dataDesc dataLayer p w w0 :
  (newImage' cfg dataDesc dataLayer p w).2
    = (newImage' cfg dataDesc dataLayer p w0).2.
Proof.
  unfold newImage.
  destruct (newLanguageLayerBuilder _ _) as [[b|] [err|]]; try done.
  destruct (b cfg p) as [err|[execDesc execLayer]]; [done|].
  pose proof (newConfig_value cfg p [dataLayer; execLayer] w w0) as H.
  destruct (newConfig _ _ _ _ _ w) as [w1 v], (newConfig _ _ _ _ _ w0) as [w1' v'].
  cbn [snd] in H. subst v'. destruct v as [err|[configDesc config]]; [done|].
  by destruct (SHA256 _).
Qed.

Lemma images_value cfg dataDesc dataLayer ps acc w w0 :
  (images' cfg dataDesc dataLayer ps acc w).2
    = (images' cfg dataDesc dataLayer ps acc w0).2.
Proof.
  revert acc w w0. induction ps as [|p ps IH]; intros acc w w0; cbn [images].
  - done.
  - pose proof (newImage_value cfg dataDesc dataLayer p w w0) as H.
    destruct (newImage _ _ _ _ _ _ _ w) as [w1 v],
             (newImage _ _ _ _ _ _ _ w0) as [w1' v'].
    cbn [snd] in H. subst v'. destruct v as [err|d]; [done|]. apply IH.
Qed.

Lemma newData_value cfg w w0 :
  source w = source w0 → (newData' cfg w).2 = (newData' cfg w0).2.
Proof.
  intros Hs. unfold newData. rewrite Hs.
  destruct (LayerFromFile _) as [err|layer]; [done|].
  destruct (v1.LSize layer); [done|]. by destruct (v1.LDigest layer).
Qed.

Lemma containerize_source cfg w : source (containerize' cfg w).1 = source w.
Proof. by destruct (containerize_links Fingerprint SHA256 LayerFromFile goLayerBuilder cfg w) as (_ & _ & _ & ?). Qed.

(** The index that a successful [containerize] leaves in [index.json]. *)
Lemma containerize_index cfg w w' :
  containerize' cfg w = (w', None) →
  ∃ w2 w3 dataDesc dataLayer imageDescs,
    source w2 = source w ∧
    (newData' cfg w2).2 = inr (dataDesc, dataLayer) ∧
    (images' cfg dataDesc dataLayer DefaultPlatforms [] w3).2 = inr imageDescs ∧
    os.ReadFile (below [hash Fingerprint cfg w; "oci"; "index.json"]) w'
      = Some (JSONIndex (v1.mkIndexManifest 2 types.OCIImageIndex imageDescs)).
Proof.
  intros H. apply containerize_ok in H
    as (w2 & w3 & w4 & dd & dl & descs & Hs & Hd & Hi & Hr).
  exists w2, w3, dd, dl, descs. rewrite Hd, Hi. done.
Qed.

(** Two runs of [containerize] for the same settings, on worlds with the
    same source tree, leave the same index. *)
Lemma containerize_index_same cfg w w' w0 w0' :
  source w = source w0 →
  containerize' cfg w = (w', None) →
  containerize' cfg w0 = (w0', None) →
  os.ReadFile (below [hash Fingerprint cfg w; "oci"; "index.json"]) w'
    = os.ReadFile (below [hash Fingerprint cfg w0; "oci"; "index.json"]) w0'.
Proof.
  intros Hs H H0.
  apply containerize_index in H as (w2 & w3 & dd & dl & descs & Hs2 & Hd & Hi & ->).
  apply containerize_index in H0 as (v2 & v3 & dd' & dl' & descs' & Hs2' & Hd' & Hi' & ->).
  rewrite (newData_value cfg w2 v2) in Hd by congruence.
  rewrite Hd in Hd'. injection Hd' as <- <-.
  rewrite (images_value cfg dd dl DefaultPlatforms [] w3 v3) in Hi.
  rewrite Hi in Hi'. by injection Hi' as <-.
Qed.

End Rebuild.

Lemma ReadFile_entry d rest w w' :
  by_hash w' !! d = by_hash w !! d →
  os.ReadFile (Builds (d :: rest)) w' = os.ReadFile (Builds (d :: rest)) w.
Proof. cbn. by intros ->. Qed.

Lemma ReadFile_Some_entry d rest w c :
  os.ReadFile (Builds (d :: rest)) w = Some c → is_Some (by_hash w !! d).
Proof. cbn. destruct (by_hash w !! d); [eauto|done]. Qed.

Lemma dir_exists_entry w d :
  is_Some (by_hash w !! d) → os.dir_exists w [d] = true.
Proof. intros H. cbn. by apply bool_decide_eq_true. Qed.

Lemma MkdirAll_entry w d :
  is_Some (by_hash w !! d) → os.MkdirAll (Builds [d]) w = w.
Proof. intros [m H]. cbn. by rewrite H. Qed.

(** A [Build] that returns no error has run all its steps, and what it
    leaves is what [teardown] makes of the world of the containerizer with
    the last link set. *)
Lemma Build_ok Fingerprint pid SHA256 LayerFromFile goLayerBuilder
    NewRepository signature fsStat CopyFromFS now b ctx f w w' :
  let cfg := mkBuildConfig ctx f now (verbose b) "" in
  Build Fingerprint pid SHA256 LayerFromFile goLayerBuilder NewRepository
        signature fsStat CopyFromFS now b ctx f w = (w', None) →
  ∃ w1 wc,
    setup Fingerprint pid cfg w = (w1, None) ∧
    source w1 = source w ∧
    containerize Fingerprint SHA256 LayerFromFile goLayerBuilder cfg w1 = (wc, None) ∧
    w' = (teardown pid cfg (set_last (Some (elems (buildDir Fingerprint cfg w))) wc)).1.
Proof.
  cbn zeta. set (cfg := mkBuildConfig ctx f now (verbose b) "").
  pose proof (setup_links Fingerprint pid cfg w) as (_ & _ & Hs & _).
  destruct (setup Fingerprint pid cfg w) as [w1 [err|]] eqn:E; cbn [fst] in Hs.
  { rewrite (Build_setup_fails _ _ _ _ _ _ _ _ _ _ _ _ _ _ _ _ E). done. }
  rewrite (Build_setup_ok _ _ _ _ _ _ _ _ _ _ _ _ _ _ _ E). fold cfg.
  unfold build. destruct NewRepository; [done|].
  destruct (scaffold _ _ _ _ _ _); [done|].
  pose proof (containerize_links Fingerprint SHA256 LayerFromFile goLayerBuilder
                cfg w1) as (_ & _ & _ & Hsc).
  destruct (containerize _ _ _ _ _ _) as [wc [err|]] eqn:Ec; [done|].
  rewrite updateLastLink_spec. cbn [fst snd] in *. intros [= <-].
  exists w1, wc. split_and!; try done.
  unfold buildDir. rewrite (hash_source Fingerprint cfg w wc) by congruence.
  done.
Qed.

(** The configs of two builds that start at different times are two
    documents, whatever the digest. *)
Lemma configs_of_two_times_differ Fingerprint SHA256 cfg1 cfg2 p layers
    w1 w1' w2 w2' desc1 desc2 config1 config2 :
  newConfig Fingerprint SHA256 cfg1 p layers w1 = (w1', inr (desc1, config1)) →
  newConfig Fingerprint SHA256 cfg2 p layers w2 = (w2', inr (desc2, config2)) →
  t cfg1 ≠ t cfg2 →
  JSONConfig config1 ≠ JSONConfig config2.
Proof.
  intros H1 H2 Ht [= E].
  apply newConfig_ok in H1 as (? & _ & -> & _).
  apply newConfig_ok in H2 as (? & _ & -> & _).
  by injection E.
Qed.




(** * Further properties of the package *)

(** ** Reading a file after an operation on another place *)

Lemma World_eq (w w' : World) :
  by_hash w = by_hash w' → by_pid w = by_pid w' → last w = last w' →
  cwd w = cwd w' → source w = source w' → alive w = alive w' → w = w'.
Proof. destruct w, w'; cbn. by intros -> -> -> -> -> ->. Qed.

Lemma ReadFile_WriteFile_ne p q c w :
  p ≠ q →
  os.ReadFile (Builds p) (os.WriteFile (Builds q) c w) = os.ReadFile (Builds p) w.
Proof.
  intros Hne. destruct q as [|d rest]; [done|].
  destruct p as [|d' rest']; [done|]. cbn.
  destruct (decide (d' = d)) as [->|Hd].
  - rewrite lookup_insert_eq. cbn.
    rewrite lookup_insert_ne by congruence.
    by destruct (by_hash w !! d).
  - by rewrite lookup_insert_ne.
Qed.

Lemma ReadFile_RemoveAll p q w :
  ¬ q `prefix_of` p →
  os.ReadFile (Builds p) (os.RemoveAll (Builds q) w) = os.ReadFile (Builds p) w.
Proof.
  intros Hpre. destruct p as [|d' rest']; [by destruct q as [|? [|? ?]]|].
  destruct q as [|d [|x rest]].
  - destruct Hpre. apply prefix_nil.
  - cbn. rewrite lookup_delete_ne; [done|]. intros ->. apply Hpre.
    by exists rest'.
  - cbn. rewrite lookup_alter. destruct (decide (d = d')) as [->|Hd]; [|done].
    destruct (by_hash w !! d') as [m|]; [|done]. cbn.
    destruct (m !! rest') as [c|] eqn:E.
    + apply map_lookup_filter_Some. split; [done|]. cbn. intros Hp.
      apply Hpre. by apply prefix_cons.
    + apply map_lookup_filter_None. by left.
Qed.

Lemma ReadFile_Cwd_ops p w name c :
  os.ReadFile (Builds p) (os.WriteFile (Cwd name) c w) = os.ReadFile (Builds p) w ∧
  os.ReadFile (Builds p) (os.RemoveAll (Cwd name) w) = os.ReadFile (Builds p) w.
Proof. by destruct p. Qed.

(** A file is as it was after a rename of two other places. *)
Lemma ReadFile_Rename p old new w :
  p ≠ new → ¬ old `prefix_of` p →
  os.ReadFile (Builds p) (os.Rename (Builds old) (Builds new) w)
    = os.ReadFile (Builds p) w.
Proof.
  intros Hn Hp. unfold os.Rename. destruct (os.ReadFile (Builds old) w); [|done].
  by rewrite ReadFile_WriteFile_ne, ReadFile_RemoveAll.
Qed.

Lemma ReadFile_Rename_from_Cwd p name new w :
  p ≠ new →
  os.ReadFile (Builds p) (os.Rename (Cwd name) (Builds new) w)
    = os.ReadFile (Builds p) w.
Proof.
  intros Hn. unfold os.Rename. destruct (os.ReadFile (Cwd name) w); [|done].
  rewrite ReadFile_WriteFile_ne by done. by destruct p.
Qed.

(** ** The coordinator, once more *)

Lemma kept_dec (w : World) d : kept w d ∨ ¬ kept w d.
Proof.
  unfold kept, liveMarker.
  destruct (decide (last w = Some [d])) as [|Hl]; [by left; left|].
  destruct (decide (map_Exists
                      (fun name p => p = [d] ∧ processExists name w = true)
                      (by_pid w))) as [He|He].
  - left; right. destruct He as (name & p & Hlook & -> & Hpe). by exists name.
  - right. intros [?|(name & Hlook & Hpe)]; [done|].
    apply He. by exists name, [d].
Qed.

(** X1.  [teardown] is idempotent: a second run on the world that the
    first one leaves changes nothing, so that the deferred call of a build
    that follows another one finds nothing more to sweep than what the
    build itself made. *)
Theorem teardown_idempotent pid cfg w :
  (teardown pid cfg (teardown pid cfg w).1).1 = (teardown pid cfg w).1.
Proof.
  pose proof (teardown_spec pid cfg w) as (_ & Hl & Ha & Hc & Hs & Hp & Hk & Hn).
  pose proof (teardown_spec pid cfg (teardown pid cfg w).1)
    as (_ & Hl' & Ha' & Hc' & Hs' & Hp' & Hk' & Hn').
  cbn zeta in Hl, Ha, Hc, Hs, Hp, Hk, Hn, Hl', Ha', Hc', Hs', Hp', Hk', Hn'.
  set (w1 := (teardown pid cfg w).1) in *.
  set (w2 := (teardown pid cfg w1).1) in *.
  assert (Hpid : by_pid w2 = by_pid w1).
  { apply map_eq. intros name. rewrite Hp'.
    destruct (decide (name = strconv.Itoa pid)) as [->|Hne].
    - rewrite Hp. by rewrite decide_True.
    - destruct (processExists name w1) eqn:E; [done|].
      rewrite Hp, decide_False by done.
      by rewrite <- (processExists_alive name w w1 Ha), E. }
  apply World_eq; try congruence.
  apply map_eq. intros d.
  destruct (kept_dec w2 d) as [K|K].
  - by apply Hk'.
  - rewrite (Hn' d K). symmetry. apply Hn. intros K1. apply K.
    by apply (kept_same w1 w2 d).
Qed.

(** X2.  The marker of a process is read back as that process: the name
    [pidLink] gives the marker parses, in [processExists], to the pid it
    was made from, so that the marker counts as live exactly while its
    process is, and two processes never share a marker. *)
Theorem marker_name_round_trip pid cfg :
  (strconv.minInt ≤ pid ≤ strconv.maxInt)%Z →
  (∀ name w, pidLink pid cfg = Pid name →
     strconv.Atoi name = Some pid ∧ processExists name w = alive w pid) ∧
  (∀ pid2 cfg2, (strconv.minInt ≤ pid2 ≤ strconv.maxInt)%Z →
     pidLink pid cfg = pidLink pid2 cfg2 → pid = pid2).
Proof.
  intros Hr. split.
  - intros name w [= <-]. unfold processExists.
    by rewrite (Atoi_Itoa pid Hr).
  - intros pid2 cfg2 Hr2 [= E].
    pose proof (Atoi_Itoa pid Hr) as H1. rewrite E, (Atoi_Itoa pid2 Hr2) in H1.
    congruence.
Qed.

Lemma marker_name_round_trip_witness :
  processExists "200" sample.fresh = alive sample.fresh 200 ∧
  (pidLink 200 (mkBuildConfig Background sample.f 0 false "")
     = pidLink 200 (mkBuildConfig Cancelled sample.f 1 true "") → 200 = 200)%Z.
Proof.
  assert (Hr : (strconv.minInt ≤ 200 ≤ strconv.maxInt)%Z) by (vm_compute; split; discriminate).
  pose proof (marker_name_round_trip 200
                (mkBuildConfig Background sample.f 0 false "") Hr) as [H1 H2].
  split.
  - apply (H1 "200" sample.fresh). reflexivity.
  - apply H2. exact Hr.
Defined.

(** X3.  [isLinkTo] compares what both of its arguments resolve to: it is
    symmetric, and it is false as soon as one of the two does not resolve,
    whatever the other is; a place that resolves is a link to itself. *)
Theorem isLinkTo_symmetric_and_dangling link target w :
  isLinkTo link target w = isLinkTo target link w ∧
  (os.EvalSymlinks link w = None →
     isLinkTo link target w = false ∧ isLinkTo target link w = false) ∧
  (isLinkTo link link w = true ↔ is_Some (os.EvalSymlinks link w)).
Proof.
  unfold isLinkTo. split_and!.
  - destruct (os.EvalSymlinks link w) as [l|], (os.EvalSymlinks target w) as [tg|];
      try done.
    apply bool_decide_ext. split; congruence.
  - intros ->. by destruct (os.EvalSymlinks target w).
  - destruct (os.EvalSymlinks link w) as [l|].
    + split; [by eexists|]. intros _. by apply bool_decide_eq_true.
    + split; [done|]. by intros [? ?].
Qed.

Lemma isLinkTo_symmetric_and_dangling_witness :
  isLinkTo (Pid "999") (Builds ["abc"]) sample.fresh = false ∧
  isLinkTo (Builds ["abc"]) (Pid "999") sample.fresh = false.
Proof.
  apply (isLinkTo_symmetric_and_dangling (Pid "999") (Builds ["abc"]) sample.fresh).
  reflexivity.
Defined.

(** ** Paths *)

Lemma prefix_app_true base s : String.prefix base (base ++ s) = true.
Proof.
  induction base as [|c base IH]; [by destruct s|].
  change (String.prefix (String c base) (String c (base ++ s)) = true).
  cbn. destruct (Ascii.ascii_dec c c); [done|congruence].
Qed.

Lemma prefix_true_app base path :
  String.prefix base path = true → ∃ s, path = (base ++ s)%string.
Proof.
  revert path. induction base as [|c base IH]; intros path H; [by exists path|].
  destruct path as [|c' path]; [done|]. cbn in H.
  destruct (Ascii.ascii_dec c c') as [->|]; [|done].
  destruct (IH _ H) as [s ->]. by exists s.
Qed.

Lemma skip_app base s : strings.skip (String.length base) (base ++ s) = s.
Proof.
  induction base as [|c base IH]; [by destruct s|].
  change (strings.skip (String.length base) (base ++ s) = s). exact IH.
Qed.

(** X4.  [rel]: a path that extends the base comes back as a dot followed
    by the extension, and any other path comes back unchanged. *)
Theorem rel_trims_base base :
  (∀ s, rel base (base ++ s) = "." ++ s) ∧
  (∀ path, (∀ s, path ≠ base ++ s) → rel base path = path) ∧
  rel base base = ".".
Proof.
  unfold rel, strings.TrimPrefix, strings.HasPrefix. split_and!.
  - intros s. by rewrite prefix_app_true, skip_app.
  - intros path H. destruct (String.prefix base path) eqn:E; [|done].
    destruct (prefix_true_app _ _ E) as [s ->]. by destruct (H s).
  - assert (E : (base ++ "")%string = base).
    { induction base as [|c base IH]; [done|].
      change (String c (base ++ "") = String c base). by rewrite IH. }
    pose proof (prefix_app_true base "") as H1.
    pose proof (skip_app base "") as H2.
    rewrite E in H1, H2. by rewrite H1, H2.
Qed.

Lemma rel_trims_base_witness :
  rel "/home/alice/f/.func/builds/by-hash/abc" "image.linux.amd64.json"
    = "image.linux.amd64.json".
Proof.
  apply (rel_trims_base "/home/alice/f/.func/builds/by-hash/abc").
  intros s. discriminate.
Defined.

Lemma append_assoc' (a b c : string) : ((a ++ b) ++ c = a ++ (b ++ c))%string.
Proof.
  induction a as [|x a IH]; [done|].
  change (String x ((a ++ b) ++ c) = String x (a ++ (b ++ c))). by rewrite IH.
Qed.

Lemma concat_cons2 sep (x y : string) l :
  String.concat sep (x :: y :: l) = (x ++ sep ++ String.concat sep (y :: l))%string.
Proof. done. Qed.

Lemma concat_nest sep (a b : list string) :
  a ≠ [] →
  String.concat sep (String.concat sep a :: b) = String.concat sep (a ++ b)%list.
Proof.
  induction a as [|x [|y a] IH]; intros Ha; [done|done|].
  rewrite concat_cons2.
  change ((x :: y :: a) ++ b)%list with (x :: y :: (a ++ b)%list).
  rewrite concat_cons2.
  change (y :: (a ++ b)%list) with ((y :: a) ++ b)%list. rewrite <- IH by done.
  destruct b as [|z b]; [done|].
  rewrite !concat_cons2. by rewrite !append_assoc'.
Qed.

Lemma concat_nonempty sep (x : string) l :
  nonempty x = true → nonempty (String.concat sep (x :: l)) = true.
Proof.
  intros Hx. destruct l as [|y l]; [done|]. rewrite concat_cons2.
  by destruct x.
Qed.

Lemma filter_nonempty_idemp (l : list string) :
  filter (fun s => nonempty s = true) (filter (fun s => nonempty s = true) l)
    = filter (fun s => nonempty s = true) l.
Proof.
  induction l as [|x l IH]; [done|]. rewrite filter_cons.
  destruct (decide (nonempty x = true)) as [Hx|Hx]; [|done].
  by rewrite filter_cons, decide_True, IH.
Qed.

(** [filepath.Join] of a joined path and further elements is the join of
    all the elements. *)
Lemma path_nest (l1 l2 : list string) :
  path (path l1 :: l2) = path (l1 ++ l2)%list.
Proof.
  unfold path. rewrite filter_app, filter_cons.
  destruct (filter (fun s => nonempty s = true) l1) as [|x a] eqn:E.
  - by rewrite decide_False.
  - assert (Hx : nonempty x = true).
    { assert (Hin : x ∈ filter (fun s => nonempty s = true) l1)
        by (rewrite E; left).
      by apply list_elem_of_filter in Hin as [? _]. }
    rewrite decide_True by by apply concat_nonempty.
    by apply concat_nest.
Qed.

Lemma render_below root (l : list string) :
  render root (below l)
    = path ([root; RunDataDir; "builds"; "by-hash"] ++ l)%list.
Proof.
  unfold below, render, path.
  by rewrite !filter_app, filter_nonempty_idemp.
Qed.


(** ** The data layer *)

Lemma walk_names t dir info :
  Forall (fun e => strings.HasPrefix (tar.Name e.1) "/func" = true)
         (walk t dir info).
Proof.
  revert dir. induction info as [name mode content|name mode children IH]
    using node_Forall_ind; intros dir; cbn [walk].
  - destruct (isIgnored _); [constructor|].
    constructor; [apply prefix_app_true|constructor].
  - destruct (isIgnored _); [constructor|].
    constructor; [apply prefix_app_true|].
    induction IH as [|c cs Hc _ IHcs]; cbn [flat_map]; [constructor|].
    apply Forall_app. split; [apply Hc|apply IHcs].
Qed.

Lemma prune_Dir name mode children :
  prune (Dir name mode children) = Dir name mode (pruned children).
Proof.
  cbn [prune]. f_equal. unfold pruned.
  induction children as [|c cs IH]; [done|]. cbn [List.filter].
  destruct (isIgnored c); cbn [negb map]; [done|]. by rewrite IH.
Qed.

Lemma isIgnored_prune info : isIgnored (prune info) = isIgnored info.
Proof. by destruct info. Qed.

Lemma walk_prune t dir info : walk t dir (prune info) = walk t dir info.
Proof.
  revert dir. induction info as [name mode content|name mode children IH]
    using node_Forall_ind; intros dir; [done|].
  rewrite prune_Dir. cbn [walk].
  change (isIgnored (Dir name mode (pruned children)))
    with (isIgnored (Dir name mode children)).
  destruct (isIgnored _); [done|]. f_equal.
  generalize (dir ++ "/" ++ name)%string as d. intros d. unfold pruned.
  induction IH as [|c cs Hc _ IHcs]; [done|]. cbn [List.filter flat_map].
  destruct (isIgnored c) eqn:E; cbn [negb map flat_map].
  - rewrite IHcs. destruct c; cbn [walk]; by rewrite E.
  - by rewrite IHcs, Hc.
Qed.

Lemma walk_pruned t dir (l : list node) :
  flat_map (walk t dir) (pruned l) = flat_map (walk t dir) l.
Proof.
  unfold pruned. induction l as [|c cs IH]; [done|]. cbn [List.filter flat_map].
  destruct (isIgnored c) eqn:E; cbn [negb map flat_map].
  - rewrite IH. destruct c; cbn [walk]; by rewrite E.
  - by rewrite IH, walk_prune.
Qed.

Lemma ReadFile_RemoveAll_self p w :
  p ≠ [] → os.ReadFile (Builds p) (os.RemoveAll (Builds p) w) = None.
Proof.
  intros Hp. destruct p as [|d [|x rest]]; [done| |]; cbn.
  - by rewrite lookup_delete_eq.
  - rewrite lookup_alter_eq. destruct (by_hash w !! d) as [m|]; [|done]. cbn.
    apply map_lookup_filter_None. right. intros c _ Hn. by apply Hn.
Qed.

Lemma below_last_nonempty (l : list string) (x : string) :
  nonempty x = true → ∃ d rest, below (l ++ [x]) = Builds (d :: rest).
Proof.
  intros Hx. unfold below. rewrite filter_app, filter_cons, decide_True by done.
  destruct (filter _ l) as [|d rest]; by eexists _, _.
Qed.

Lemma elems_below_cons (x : string) l :
  elems (below (x :: l)) = if nonempty x then x :: elems (below l) else elems (below l).
Proof.
  unfold below, elems. rewrite filter_cons.
  destruct (nonempty x); [by rewrite decide_True|by rewrite decide_False].
Qed.

Lemma elems_below_nil : elems (below []) = [].
Proof. done. Qed.

Lemma below_elems (l : list string) : below l = Builds (elems (below l)).
Proof. done. Qed.

Ltac paths :=
  rewrite ?elems_below_cons, ?elems_below_nil; cbn [nonempty].

(** The temporary files are no blobs. *)
Lemma temp_is_no_blob (h name x : string) :
  name ≠ "oci" → nonempty name = true →
  elems (below [h; name]) ≠ elems (below [h; "oci"; "blobs"; "sha256"; x]).
Proof.
  intros Hn Hne. paths. rewrite Hne.
  destruct (nonempty h), (nonempty x); congruence.
Qed.

(** X6.  What [newData] leaves behind when it succeeds: the blob named by
    the digest of the layer holds the tarball, of which the layer is the
    one [tarball.LayerFromFile] makes; the descriptor carries the digest
    and the size of that layer under the media type of a layer; the
    temporary file is gone; the first entry of the tarball is the directory
    [/func] with mode 0755, and every entry has a name that starts with
    [/func] and the timestamp of the build. *)
Theorem data_layer_contents Fingerprint LayerFromFile cfg w w' desc layer :
  newData Fingerprint LayerFromFile cfg w = (w', inr (desc, layer)) →
  let hsh := hash Fingerprint cfg w in
  ∃ entries,
    os.ReadFile (below [hsh; "oci"; "blobs"; "sha256"; v1.Hex (v1.Digest desc)]) w'
      = Some (TarGz entries) ∧
    os.ReadFile (below [hsh; "datalayer.tar.gz"]) w' = None ∧
    LayerFromFile (TarGz entries) = inr layer ∧
    v1.LDigest layer = inr (v1.Digest desc) ∧
    v1.LSize layer = inr (v1.Size desc) ∧
    v1.MediaType desc = types.OCILayer ∧
    v1.Platform_ desc = None ∧
    head entries = Some (tar.mkHeader "/func" tar.TypeDir 493 (t cfg), ""%string) ∧
    Forall (fun e => tar.ModTime e.1 = t cfg ∧
                     strings.HasPrefix (tar.Name e.1) "/func" = true) entries ∧
    source w' = source w.
Proof.
  intros H hsh. unfold newData in H. fold hsh in H.
  set (entries := (tar.mkHeader "/func" tar.TypeDir 493 (t cfg), ""%string)
                    :: flat_map (walk (t cfg) "") (source w)) in *.
  destruct (LayerFromFile (TarGz entries)) as [err|l] eqn:EL; [done|].
  destruct (v1.LSize l) as [err|dls] eqn:ES; [done|].
  destruct (v1.LDigest l) as [err|dld] eqn:ED; [done|].
  apply pair_equal_spec in H as [Hw Hr]. injection Hr as <- <-. subst w'.
  cbn [v1.Digest v1.Size v1.MediaType v1.Platform_].
  destruct (below_last_nonempty [hsh] "datalayer.tar.gz" eq_refl) as (d & rest & Et).
  destruct (blob_place hsh (v1.Hex dld)) as (d' & rest' & Eb).
  pose proof (temp_is_no_blob hsh "datalayer.tar.gz" (v1.Hex dld)) as Hne.
  cbn [app] in Et. rewrite Et, Eb in Hne |- *. cbn [elems] in Hne.
  exists entries. split_and!; try done.
  - unfold os.Rename. rewrite ReadFile_WriteFile. apply ReadFile_WriteFile.
  - unfold os.Rename. rewrite ReadFile_WriteFile.
    rewrite ReadFile_WriteFile_ne by by apply Hne.
    by apply ReadFile_RemoveAll_self.
  - constructor; [done|]. apply Forall_flat_map, Forall_forall. intros n _.
    pose proof (walk_ModTime (t cfg) "" n) as H1.
    pose proof (walk_names (t cfg) "" n) as H2.
    rewrite Forall_forall in H1, H2. apply Forall_forall. intros e He.
    split; [by apply H1|by apply H2].
  - pose proof (Rename_links (Builds (d :: rest)) (Builds (d' :: rest'))
                  (os.WriteFile (Builds (d :: rest)) (TarGz entries) w))
      as (_ & _ & _ & ->).
    done.
Qed.

Lemma data_layer_contents_witness :
  let cfg := mkBuildConfig Background sample.f 1700000000 false "" in
  let r := newData sample.Fingerprint sample.LayerFromFile cfg sample.fresh in
  ∃ entries,
    os.ReadFile (below ["abc"; "oci"; "blobs"; "sha256"; "gz-data"]) r.1
      = Some (TarGz entries) ∧
    os.ReadFile (below ["abc"; "datalayer.tar.gz"]) r.1 = None ∧
    tar.Name ∘ fst <$> entries = ["/func"; "/func/go.mod"; "/func/handle.go"].
Proof.
  intros cfg r.
  destruct (data_layer_contents sample.Fingerprint sample.LayerFromFile cfg
              sample.fresh r.1
              (v1.mkDescriptor types.OCILayer 10 (v1.mkHash "sha256" "gz-data") None)
              (sample.layer "data") eq_refl)
    as (entries & H1 & H2 & _).
  exists entries. split_and!; [exact H1|exact H2|].
  vm_compute in H1. injection H1 as <-. reflexivity.
Defined.

(** X7.  The data layer depends on the source tree only through the
    entries that are not ignored: two trees that agree once the entries
    named in [DefaultIgnored] are left out, at every depth, give the same
    tarball, hence the same layer and the same descriptor. *)
Theorem data_layer_ignores Fingerprint LayerFromFile cfg w w0 :
  pruned (source w) = pruned (source w0) →
  (∀ dir, flat_map (walk (t cfg) dir) (source w)
          = flat_map (walk (t cfg) dir) (source w0)) ∧
  (newData Fingerprint LayerFromFile cfg w).2
    = (newData Fingerprint LayerFromFile cfg w0).2.
Proof.
  intros Hp.
  assert (Hw : ∀ dir, flat_map (walk (t cfg) dir) (source w)
                      = flat_map (walk (t cfg) dir) (source w0)).
  { intros dir. by rewrite <- (walk_pruned _ _ (source w)), Hp, walk_pruned. }
  split; [done|]. unfold newData. rewrite (Hw ""%string).
  destruct (LayerFromFile _) as [err|layer]; [done|].
  destruct (v1.LSize layer); [done|]. by destruct (v1.LDigest layer).
Qed.

Lemma data_layer_ignores_witness :
  let cfg := mkBuildConfig Background sample.f 1700000000 false "" in
  let bare :=
    mkWorld ∅ ∅ None ∅
      [ File "go.mod" 420 "module function";
        Dir ".func" 493 [File "local.yaml" 420 ""];
        File "handle.go" 420 "package function";
        File ".gitignore" 420 "/f" ] sample.alive in
  (∀ dir, flat_map (walk 1700000000 dir) (source sample.fresh)
          = flat_map (walk 1700000000 dir) (source bare)) ∧
  (newData sample.Fingerprint sample.LayerFromFile cfg sample.fresh).2
    = (newData sample.Fingerprint sample.LayerFromFile cfg bare).2.
Proof.
  intros cfg bare.
  apply (data_layer_ignores sample.Fingerprint sample.LayerFromFile cfg
           sample.fresh bare).
  reflexivity.
Defined.

(** ** What the containerizer touches *)

Lemma nonempty_ne (x : string) : x ≠ ""%string → nonempty x = true.
Proof. by destruct x. Qed.

Lemma below_cons_hash (x : string) l :
  x ≠ ""%string → below (x :: l) = Builds (x :: elems (below l)).
Proof.
  intros Hx. rewrite below_elems, elems_below_cons. by rewrite nonempty_ne.
Qed.

(** The entries of [by-hash] other than the one written to. *)
Lemma WriteFile_entry d rest c w x :
  x ≠ d → by_hash (os.WriteFile (Builds (d :: rest)) c w) !! x = by_hash w !! x.
Proof. intros Hx. cbn. by rewrite lookup_insert_ne. Qed.

Lemma RemoveAll_entry d rest w x :
  x ≠ d → by_hash (os.RemoveAll (Builds (d :: rest)) w) !! x = by_hash w !! x.
Proof.
  intros Hx. destruct rest; cbn.
  - by rewrite lookup_delete_ne.
  - by rewrite lookup_alter_ne.
Qed.

Lemma Rename_entry d rest d' rest' w x :
  x ≠ d → x ≠ d' →
  by_hash (os.Rename (Builds (d :: rest)) (Builds (d' :: rest')) w) !! x
    = by_hash w !! x.
Proof.
  intros Hx Hx'. unfold os.Rename. destruct (os.ReadFile _ w); [|done].
  by rewrite WriteFile_entry, RemoveAll_entry.
Qed.

Lemma Rename_Cwd_entry name d' rest' w x :
  x ≠ d' →
  by_hash (os.Rename (Cwd name) (Builds (d' :: rest')) w) !! x = by_hash w !! x.
Proof.
  intros Hx'. unfold os.Rename. destruct (os.ReadFile _ w); [|done].
  by rewrite WriteFile_entry.
Qed.

Lemma MkdirAll_entry_ne d rest w x :
  x ≠ d → by_hash (os.MkdirAll (Builds (d :: rest)) w) !! x = by_hash w !! x.
Proof.
  intros Hx. cbn. destruct (by_hash w !! d); [done|]. cbn.
  by rewrite lookup_insert_ne.
Qed.

(** The working directory under the operations on [by-hash]. *)
Lemma WriteFile_cwd p c w : cwd (os.WriteFile (Builds p) c w) = cwd w.
Proof. by destruct p. Qed.

Lemma RemoveAll_cwd p w : cwd (os.RemoveAll (Builds p) w) = cwd w.
Proof. by destruct p as [|? [|? ?]]. Qed.

Lemma Rename_cwd p q w : cwd (os.Rename (Builds p) (Builds q) w) = cwd w.
Proof.
  unfold os.Rename. destruct (os.ReadFile _ w); [|done].
  by rewrite WriteFile_cwd, RemoveAll_cwd.
Qed.

Lemma MkdirAll_cwd pl w : cwd (os.MkdirAll pl w) = cwd w.
Proof. destruct pl as [| | |[|d rest]|]; try done. cbn. by destruct (by_hash w !! d). Qed.

(** Reading a file after [MkdirAll]: a directory that is made is empty. *)
Lemma ReadFile_MkdirAll p pl w :
  os.ReadFile (Builds p) (os.MkdirAll pl w) = os.ReadFile (Builds p) w.
Proof.
  destruct pl as [| | |[|d rest]|]; try done. destruct p as [|d' rest']; [done|].
  cbn. destruct (by_hash w !! d) eqn:E; [done|]. cbn.
  destruct (decide (d' = d)) as [->|Hd].
  - by rewrite lookup_insert_eq, E.
  - by rewrite lookup_insert_ne.
Qed.

Section ContainerizeFrame.

Variable Fingerprint : fn.Function → list node → string * option error.
Variable SHA256 : file → v1.Hash * Z.
Variable LayerFromFile : file → error + v1.Layer.
Variable goLayerBuilder : languageLayerBuilder.

Local Abbreviation hash' := (hash Fingerprint).
Local Abbreviation newData' := (newData Fingerprint LayerFromFile).
Local Abbreviation newConfig' := (newConfig Fingerprint SHA256).
Local Abbreviation newImage' := (newImage Fingerprint SHA256 goLayerBuilder).
Local Abbreviation images' := (images Fingerprint SHA256 goLayerBuilder).
Local Abbreviation containerize' :=
  (containerize Fingerprint SHA256 LayerFromFile goLayerBuilder).

(** *** The other entries of [by-hash] *)

Lemma newData_entry cfg w x :
  hash' cfg w ≠ ""%string → x ≠ hash' cfg w →
  by_hash (newData' cfg w).1 !! x = by_hash w !! x.
Proof.
  intros Hh Hx. unfold newData. rewrite !(below_cons_hash (hash' cfg w)) by done.
  destruct (LayerFromFile _) as [err|layer]; [by apply WriteFile_entry|].
  destruct (v1.LSize layer); [by apply WriteFile_entry|].
  destruct (v1.LDigest layer); [by apply WriteFile_entry|].
  cbn [fst]. rewrite (below_cons_hash (hash' cfg w)) by done.
  by rewrite Rename_entry, WriteFile_entry.
Qed.

Lemma newConfig_entry cfg p layers w x :
  hash' cfg w ≠ ""%string → x ≠ hash' cfg w →
  by_hash (newConfig' cfg p layers w).1 !! x = by_hash w !! x.
Proof.
  intros Hh Hx. unfold newConfig. rewrite !(below_cons_hash (hash' cfg w)) by done.
  destruct (diffIDs layers); [done|]. destruct (SHA256 _) as [hash_ size].
  cbn [fst]. rewrite ?(below_cons_hash (hash' cfg w)) by done.
  by rewrite Rename_entry, WriteFile_entry.
Qed.

Lemma newImage_entry cfg dataDesc dataLayer p w x :
  hash' cfg w ≠ ""%string → x ≠ hash' cfg w →
  by_hash (newImage' cfg dataDesc dataLayer p w).1 !! x = by_hash w !! x.
Proof.
  intros Hh Hx. unfold newImage.
  destruct (newLanguageLayerBuilder _ _) as [[b|] [err|]]; try done.
  destruct (b cfg p) as [err|[execDesc execLayer]]; [done|].
  pose proof (newConfig_entry cfg p [dataLayer; execLayer] w x Hh Hx) as Hc.
  destruct (newConfig' cfg p [dataLayer; execLayer] w) as [w1 [err|[configDesc c]]];
    [done|].
  destruct (SHA256 _) as [hash_ size]. cbn [fst] in Hc |- *.
  rewrite (below_cons_hash (hash' cfg w)) by done. by rewrite Rename_Cwd_entry.
Qed.

Lemma images_entry cfg dataDesc dataLayer ps acc w x :
  hash' cfg w ≠ ""%string → x ≠ hash' cfg w →
  by_hash (images' cfg dataDesc dataLayer ps acc w).1 !! x = by_hash w !! x.
Proof.
  revert acc w. induction ps as [|p ps IH]; intros acc w Hh Hx; [done|].
  cbn [images].
  pose proof (newImage_entry cfg dataDesc dataLayer p w x Hh Hx) as Hi.
  pose proof (newImage_links Fingerprint SHA256 goLayerBuilder cfg dataDesc
                dataLayer p w) as (_ & _ & _ & Hs).
  destruct (newImage' cfg dataDesc dataLayer p w) as [w1 [err|imageDesc]];
    [done|].
  cbn [fst] in Hi, Hs. rewrite <- Hi. apply IH.
  - by rewrite (hash_source Fingerprint cfg w w1 Hs).
  - by rewrite (hash_source Fingerprint cfg w w1 Hs).
Qed.

Lemma containerize_entry cfg w x :
  hash' cfg w ≠ ""%string → x ≠ hash' cfg w →
  by_hash (containerize' cfg w).1 !! x = by_hash w !! x.
Proof.
  intros Hh Hx. unfold containerize, blobsDir.
  rewrite !(below_cons_hash (hash' cfg w)) by done.
  set (w1 := os.MkdirAll _ w).
  set (w2 := os.WriteFile _ _ w1).
  assert (H2 : by_hash w2 !! x = by_hash w !! x).
  { unfold w2, w1. by rewrite WriteFile_entry, MkdirAll_entry_ne. }
  assert (Hs2 : source w2 = source w).
  { unfold w2, w1.
    pose proof (WriteFile_links (Builds (hash' cfg w :: elems (below ["oci"; "oci-layout"])))
                  (Text ociLayout) (os.MkdirAll (Builds (hash' cfg w :: elems (below ["oci"; "blobs"; "sha256"]))) w))
      as (_ & _ & _ & ->).
    by pose proof (MkdirAll_links (Builds (hash' cfg w :: elems (below ["oci"; "blobs"; "sha256"]))) w)
      as (_ & _ & _ & ->). }
  pose proof (hash_source Fingerprint cfg w w2 Hs2) as Hh2.
  assert (H3 : by_hash (newData' cfg w2).1 !! x = by_hash w !! x).
  { rewrite <- H2. apply newData_entry; by rewrite Hh2. }
  pose proof (newData_links Fingerprint LayerFromFile cfg w2) as (_ & _ & _ & Hs3).
  destruct (newData' cfg w2) as [w3 [err|[dataDesc dataLayer]]]; [done|].
  cbn [fst] in H3, Hs3.
  assert (Hh3 : hash' cfg w3 = hash' cfg w).
  { rewrite <- Hh2. by apply hash_source. }
  assert (H4 : by_hash (images' cfg dataDesc dataLayer DefaultPlatforms [] w3).1 !! x
               = by_hash w !! x).
  { rewrite <- H3. apply images_entry; by rewrite Hh3. }
  pose proof (images_links Fingerprint SHA256 goLayerBuilder cfg dataDesc
                dataLayer DefaultPlatforms [] w3) as (_ & _ & _ & Hs4).
  destruct (images' cfg dataDesc dataLayer DefaultPlatforms [] w3)
    as [w4 [err|imageDescs]]; [done|].
  cbn [fst] in H4, Hs4. unfold newImageIndex. cbn [fst].
  rewrite (hash_source Fingerprint cfg w3 w4 Hs4), Hh3.
  rewrite (below_cons_hash (hash' cfg w)) by done. by rewrite WriteFile_entry.
Qed.

(** *** The working directory *)

Lemma newData_cwd cfg w : cwd (newData' cfg w).1 = cwd w.
Proof.
  unfold newData, below.
  destruct (LayerFromFile _) as [err|layer]; [by apply WriteFile_cwd|].
  destruct (v1.LSize layer); [by apply WriteFile_cwd|].
  destruct (v1.LDigest layer); [by apply WriteFile_cwd|].
  cbn [fst]. by rewrite Rename_cwd, WriteFile_cwd.
Qed.

Lemma newConfig_cwd cfg p layers w : cwd (newConfig' cfg p layers w).1 = cwd w.
Proof.
  unfold newConfig, below.
  destruct (diffIDs layers); [done|]. destruct (SHA256 _) as [hash_ size].
  cbn [fst]. by rewrite Rename_cwd, WriteFile_cwd.
Qed.

Lemma Rename_from_Cwd_cwd name q c w x :
  cwd (os.Rename (Cwd name) (Builds q) (os.WriteFile (Cwd name) c w)) !! x
    = if decide (x = name) then None else cwd w !! x.
Proof.
  unfold os.Rename.
  assert (os.ReadFile (Cwd name) (os.WriteFile (Cwd name) c w) = Some c) as ->
    by (cbn; apply lookup_insert_eq).
  rewrite WriteFile_cwd. cbn. destruct (decide (x = name)) as [->|Hx].
  - by rewrite lookup_delete_eq.
  - by rewrite lookup_delete_ne, lookup_insert_ne.
Qed.

Lemma newImage_cwd cfg dataDesc dataLayer p w :
  let r := newImage' cfg dataDesc dataLayer p w in
  (∀ name, name ≠ manifestFile p → cwd r.1 !! name = cwd w !! name) ∧
  (∀ d, r.2 = inr d → cwd r.1 !! manifestFile p = None).
Proof.
  unfold newImage. fold (manifestFile p).
  destruct (newLanguageLayerBuilder _ _) as [[b|] [err|]]; try done.
  destruct (b cfg p) as [err|[execDesc execLayer]]; [done|].
  pose proof (newConfig_cwd cfg p [dataLayer; execLayer] w) as Hc.
  destruct (newConfig' cfg p [dataLayer; execLayer] w)
    as [w1 [err|[configDesc c]]]; [by rewrite <- Hc|].
  destruct (SHA256 _) as [hash_ size]. cbn [fst snd] in Hc |- *.
  unfold below. split.
  - intros name Hn. by rewrite Rename_from_Cwd_cwd, decide_False, Hc.
  - intros _ _. by rewrite Rename_from_Cwd_cwd, decide_True.
Qed.

Lemma images_cwd cfg dataDesc dataLayer ps acc w name :
  let r := images' cfg dataDesc dataLayer ps acc w in
  (name ∉ manifestFile <$> ps → cwd r.1 !! name = cwd w !! name) ∧
  (∀ ds, r.2 = inr ds → name ∈ manifestFile <$> ps → cwd r.1 !! name = None).
Proof.
  revert acc w. induction ps as [|p ps IH]; intros acc w; cbn [images].
  { split; [done|]. intros _ _ Hin. by apply elem_of_nil in Hin. }
  pose proof (newImage_cwd cfg dataDesc dataLayer p w) as [H1 H2].
  cbn zeta in H1, H2.
  destruct (newImage' cfg dataDesc dataLayer p w) as [w1 [err|imageDesc]].
  { cbn [fst snd] in *. split; [|done]. intros Hn. apply H1.
    intros ->. apply Hn. rewrite fmap_cons. left. }
  cbn [fst snd] in H1, H2.
  destruct (IH (acc ++ [imageDesc])%list w1) as [I1 I2]. cbn zeta in I1, I2.
  split.
  - intros Hn. rewrite fmap_cons, not_elem_of_cons in Hn. destruct Hn as [Hp Hps].
    rewrite (I1 Hps). by apply H1.
  - intros ds Hds Hin.
    destruct (decide (name ∈ manifestFile <$> ps)) as [Hps|Hps].
    + by apply (I2 ds).
    + rewrite (I1 Hps). rewrite fmap_cons, elem_of_cons in Hin.
      destruct Hin as [->|?]; [|done]. by apply (H2 imageDesc).
Qed.

(** *** The files that are left alone *)

Lemma untouched_temp hsh q name :
  ¬ elems (below [hsh; name]) `prefix_of` q → q ≠ elems (below [hsh; name]).
Proof. intros Hp ->. by apply Hp. Qed.

Lemma newData_file cfg w q :
  untouched (hash' cfg w) q →
  os.ReadFile (Builds q) (newData' cfg w).1 = os.ReadFile (Builds q) w.
Proof.
  intros (Hb & Ht & _). pose proof (untouched_temp _ _ _ Ht) as Hne.
  unfold newData. rewrite (below_elems [hash' cfg w; "datalayer.tar.gz"]).
  destruct (LayerFromFile _) as [err|layer]; [by apply ReadFile_WriteFile_ne|].
  destruct (v1.LSize layer); [by apply ReadFile_WriteFile_ne|].
  destruct (v1.LDigest layer) as [|dld]; [by apply ReadFile_WriteFile_ne|].
  cbn [fst]. rewrite (below_elems [hash' cfg w; "oci"; "blobs"; "sha256"; v1.Hex dld]).
  rewrite ReadFile_Rename; [by apply ReadFile_WriteFile_ne|apply Hb|done].
Qed.

Lemma newConfig_file cfg p layers w q :
  untouched (hash' cfg w) q →
  os.ReadFile (Builds q) (newConfig' cfg p layers w).1 = os.ReadFile (Builds q) w.
Proof.
  intros (Hb & _ & Ht). pose proof (untouched_temp _ _ _ Ht) as Hne.
  unfold newConfig. rewrite (below_elems [hash' cfg w; "config.json"]).
  destruct (diffIDs layers); [done|]. destruct (SHA256 _) as [hash_ size].
  cbn [fst]. rewrite (below_elems [hash' cfg w; "oci"; "blobs"; "sha256"; v1.Hex hash_]).
  rewrite ReadFile_Rename; [by apply ReadFile_WriteFile_ne|apply Hb|done].
Qed.

Lemma newImage_file cfg dataDesc dataLayer p w q :
  untouched (hash' cfg w) q →
  os.ReadFile (Builds q) (newImage' cfg dataDesc dataLayer p w).1
    = os.ReadFile (Builds q) w.
Proof.
  intros Hu. unfold newImage.
  destruct (newLanguageLayerBuilder _ _) as [[b|] [err|]]; try done.
  destruct (b cfg p) as [err|[execDesc execLayer]]; [done|].
  pose proof (newConfig_file cfg p [dataLayer; execLayer] w q Hu) as Hc.
  destruct (newConfig' cfg p [dataLayer; execLayer] w)
    as [w1 [err|[configDesc c]]]; [done|].
  destruct (SHA256 _) as [hash_ size]. cbn [fst] in Hc |- *.
  rewrite (below_elems [hash' cfg w; "oci"; "blobs"; "sha256"; v1.Hex hash_]).
  rewrite ReadFile_Rename_from_Cwd by apply Hu.
  by rewrite (proj1 (ReadFile_Cwd_ops q w1 _ _)).
Qed.

Lemma images_file cfg dataDesc dataLayer ps acc w q :
  untouched (hash' cfg w) q →
  os.ReadFile (Builds q) (images' cfg dataDesc dataLayer ps acc w).1
    = os.ReadFile (Builds q) w.
Proof.
  revert acc w. induction ps as [|p ps IH]; intros acc w Hu; [done|].
  cbn [images].
  pose proof (newImage_file cfg dataDesc dataLayer p w q Hu) as Hi.
  pose proof (newImage_links Fingerprint SHA256 goLayerBuilder cfg dataDesc
                dataLayer p w) as (_ & _ & _ & Hs).
  destruct (newImage' cfg dataDesc dataLayer p w) as [w1 [err|imageDesc]];
    [done|].
  cbn [fst] in Hi, Hs. rewrite <- Hi. apply IH.
  by rewrite (hash_source Fingerprint cfg w w1 Hs).
Qed.

Lemma untouched_index hsh : untouched hsh (elems (below [hsh; "oci"; "index.json"])).
Proof.
  unfold untouched. split_and!.
  - intros x. paths. destruct (nonempty hsh), (nonempty x); congruence.
  - paths. destruct (nonempty hsh); intros [k Hk]; discriminate.
  - paths. destruct (nonempty hsh); intros [k Hk]; discriminate.
Qed.

Lemma untouched_layout hsh : untouched hsh (elems (below [hsh; "oci"; "oci-layout"])).
Proof.
  unfold untouched. split_and!.
  - intros x. paths. destruct (nonempty hsh), (nonempty x); congruence.
  - paths. destruct (nonempty hsh); intros [k Hk]; discriminate.
  - paths. destruct (nonempty hsh); intros [k Hk]; discriminate.
Qed.

Lemma layout_is_not_index hsh :
  elems (below [hsh; "oci"; "oci-layout"]) ≠ elems (below [hsh; "oci"; "index.json"]).
Proof. paths. destruct (nonempty hsh); congruence. Qed.

(** The worlds on the way through [containerize], up to the index. *)
Lemma containerize_steps cfg w :
  let w2 := os.WriteFile (below [hash' cfg w; "oci"; "oci-layout"]) (Text ociLayout)
              (os.MkdirAll (blobsDir Fingerprint cfg w) w) in
  source w2 = source w ∧ cwd w2 = cwd w ∧
  (∀ q, q ≠ elems (below [hash' cfg w; "oci"; "oci-layout"]) →
        os.ReadFile (Builds q) w2 = os.ReadFile (Builds q) w) ∧
  os.ReadFile (below [hash' cfg w; "oci"; "oci-layout"]) w2 = Some (Text ociLayout) ∧
  match newData' cfg w2 with
  | (w3, inl err) => containerize' cfg w = (w3, Some err)
  | (w3, inr (dataDesc, dataLayer)) =>
      source w3 = source w ∧
      match images' cfg dataDesc dataLayer DefaultPlatforms [] w3 with
      | (w4, inl err) => containerize' cfg w = (w4, Some err)
      | (w4, inr imageDescs) =>
          source w4 = source w ∧
          containerize' cfg w =
            (os.WriteFile (below [hash' cfg w; "oci"; "index.json"])
               (JSONIndex (v1.mkIndexManifest 2 types.OCIImageIndex imageDescs)) w4,
             None)
      end
  end.
Proof.
  intros w2.
  assert (Hs2 : source w2 = source w).
  { unfold w2.
    pose proof (WriteFile_links (below [hash' cfg w; "oci"; "oci-layout"])
                  (Text ociLayout) (os.MkdirAll (blobsDir Fingerprint cfg w) w))
      as (_ & _ & _ & ->).
    by pose proof (MkdirAll_links (blobsDir Fingerprint cfg w) w)
      as (_ & _ & _ & ->). }
  split_and!; [done| | | |].
  - unfold w2, below. by rewrite WriteFile_cwd, MkdirAll_cwd.
  - intros q Hq. unfold w2. rewrite below_elems.
    by rewrite ReadFile_WriteFile_ne, ReadFile_MkdirAll.
  - unfold w2. destruct (below_last_nonempty [hash' cfg w; "oci"] "oci-layout" eq_refl)
      as (d & rest & E).
    cbn [app] in E. rewrite E. apply ReadFile_WriteFile.
  - unfold containerize. fold w2.
    pose proof (newData_links Fingerprint LayerFromFile cfg w2) as (_ & _ & _ & Hs3).
    destruct (newData' cfg w2) as [w3 [err|[dataDesc dataLayer]]]; [done|].
    cbn [fst] in Hs3. split; [congruence|].
    pose proof (images_links Fingerprint SHA256 goLayerBuilder cfg dataDesc
                  dataLayer DefaultPlatforms [] w3) as (_ & _ & _ & Hs4).
    destruct (images' cfg dataDesc dataLayer DefaultPlatforms [] w3)
      as [w4 [err|imageDescs]]; [done|].
    cbn [fst] in Hs4. split; [congruence|]. unfold newImageIndex.
    by rewrite (hash_source Fingerprint cfg w w4) by congruence.
Qed.

End ContainerizeFrame.

Lemma containerize_file_after_layout Fingerprint SHA256 LayerFromFile
    goLayerBuilder cfg w q :
  let r := containerize Fingerprint SHA256 LayerFromFile goLayerBuilder cfg w in
  let hsh := hash Fingerprint cfg w in
  let w2 := os.WriteFile (below [hsh; "oci"; "oci-layout"]) (Text ociLayout)
              (os.MkdirAll (blobsDir Fingerprint cfg w) w) in
  untouched hsh q →
  (r.2 = None → q ≠ elems (below [hsh; "oci"; "index.json"])) →
  os.ReadFile (Builds q) r.1 = os.ReadFile (Builds q) w2.
Proof.
  intros r hsh w2 Hu Hi.
  pose proof (containerize_steps Fingerprint SHA256 LayerFromFile goLayerBuilder cfg w)
    as (Hs2 & _ & _ & _ & Hrest).
  cbn zeta in Hs2, Hrest. fold hsh in Hs2, Hrest. fold w2 in Hs2, Hrest.
  pose proof (newData_file Fingerprint LayerFromFile cfg w2 q) as H3.
  rewrite (hash_source Fingerprint cfg w w2 Hs2) in H3. specialize (H3 Hu).
  destruct (newData Fingerprint LayerFromFile cfg w2)
    as [w3 [err|[dataDesc dataLayer]]].
  { unfold r. rewrite Hrest. cbn [fst] in *. by rewrite H3. }
  destruct Hrest as [Hs3 Hrest]. cbn [fst] in H3.
  pose proof (images_file Fingerprint SHA256 goLayerBuilder cfg dataDesc dataLayer
                DefaultPlatforms [] w3 q) as H4.
  rewrite (hash_source Fingerprint cfg w w3 Hs3) in H4. specialize (H4 Hu).
  destruct (images Fingerprint SHA256 goLayerBuilder cfg dataDesc dataLayer
              DefaultPlatforms [] w3) as [w4 [err|imageDescs]].
  { unfold r. rewrite Hrest. cbn [fst] in *. by rewrite H4, H3. }
  destruct Hrest as [Hs4 Hrest]. cbn [fst] in H4.
  unfold r in Hi |- *. rewrite Hrest in Hi |- *. cbn [fst snd] in Hi |- *.
  rewrite below_elems, ReadFile_WriteFile_ne by by apply Hi.
  by rewrite H4, H3.
Qed.

Lemma containerize_file Fingerprint SHA256 LayerFromFile goLayerBuilder cfg w q :
  let r := containerize Fingerprint SHA256 LayerFromFile goLayerBuilder cfg w in
  let hsh := hash Fingerprint cfg w in
  untouched hsh q →
  q ≠ elems (below [hsh; "oci"; "oci-layout"]) →
  (r.2 = None → q ≠ elems (below [hsh; "oci"; "index.json"])) →
  os.ReadFile (Builds q) r.1 = os.ReadFile (Builds q) w.
Proof.
  intros r hsh Hu Hl Hi.
  pose proof (containerize_steps Fingerprint SHA256 LayerFromFile goLayerBuilder cfg w)
    as (_ & _ & Hf2 & _).
  cbn zeta in Hf2. rewrite <- (Hf2 q Hl).
  by apply (containerize_file_after_layout Fingerprint SHA256 LayerFromFile
              goLayerBuilder).
Qed.

Lemma containerize_cwd Fingerprint SHA256 LayerFromFile goLayerBuilder cfg w name :
  let r := containerize Fingerprint SHA256 LayerFromFile goLayerBuilder cfg w in
  (name ∉ manifestFile <$> DefaultPlatforms → cwd r.1 !! name = cwd w !! name) ∧
  (r.2 = None → name ∈ manifestFile <$> DefaultPlatforms → cwd r.1 !! name = None).
Proof.
  intros r.
  pose proof (containerize_steps Fingerprint SHA256 LayerFromFile goLayerBuilder cfg w)
    as (_ & Hc2 & _ & _ & Hrest).
  cbn zeta in Hc2, Hrest.
  set (w2 := os.WriteFile _ _ _) in Hc2, Hrest.
  pose proof (newData_cwd Fingerprint LayerFromFile cfg w2) as H3.
  destruct (newData Fingerprint LayerFromFile cfg w2)
    as [w3 [err|[dataDesc dataLayer]]].
  { unfold r. rewrite Hrest. cbn [fst snd] in *. split; [|done].
    by rewrite H3, Hc2. }
  destruct Hrest as [_ Hrest]. cbn [fst] in H3.
  pose proof (images_cwd Fingerprint SHA256 goLayerBuilder cfg dataDesc dataLayer
                DefaultPlatforms [] w3 name) as [H4 H5].
  cbn zeta in H4, H5.
  destruct (images Fingerprint SHA256 goLayerBuilder cfg dataDesc dataLayer
              DefaultPlatforms [] w3) as [w4 [err|imageDescs]].
  { unfold r. rewrite Hrest. cbn [fst snd] in *. split; [|done].
    intros Hn. by rewrite (H4 Hn), H3, Hc2. }
  destruct Hrest as [_ Hrest]. cbn [fst snd] in H4, H5.
  unfold r. rewrite Hrest. cbn [fst snd]. unfold below. rewrite WriteFile_cwd.
  split.
  - intros Hn. by rewrite (H4 Hn), H3, Hc2.
  - intros _ Hin. by apply (H5 imageDescs).
Qed.





Lemma newImage_desc Fingerprint SHA256 goLayerBuilder cfg dataDesc dataLayer
    p w w' d :
  newImage Fingerprint SHA256 goLayerBuilder cfg dataDesc dataLayer p w
    = (w', inr d) →
  v1.Platform_ d = Some p ∧ v1.MediaType d = types.OCIManifestSchema1.
Proof.
  unfold newImage.
  destruct (newLanguageLayerBuilder _ _) as [[b|] [err|]]; try done.
  destruct (b cfg p) as [err|[execDesc execLayer]]; [done|].
  destruct (newConfig _ _ _ _ _ _) as [w1 [err|[configDesc c]]]; [done|].
  destruct (SHA256 _) as [hash_ size]. intros H.
  apply pair_equal_spec in H as [_ H]. by injection H as <-.
Qed.

Lemma newImage_descs Fingerprint SHA256 goLayerBuilder cfg dataDesc dataLayer
    ps ds :
  Forall2 (fun p d => ∃ wa wb,
             newImage Fingerprint SHA256 goLayerBuilder cfg dataDesc dataLayer p wa
               = (wb, inr d)) ps ds →
  v1.Platform_ <$> ds = Some <$> ps ∧
  Forall (fun d => v1.MediaType d = types.OCIManifestSchema1) ds.
Proof.
  induction 1 as [|p d ps ds (wa & wb & Hn) _ [IH1 IH2]]; [done|].
  destruct (newImage_desc _ _ _ _ _ _ _ _ _ _ Hn) as [Hp Hm].
  split; [|by constructor]. rewrite !fmap_cons. by rewrite Hp, IH1.
Qed.

(** X10.  What a run of [containerize] that succeeds leaves in the [oci]
    directory: the file [oci-layout] with the layout version, and an
    [index.json] of schema version 2 and of the media type of an image
    index that lists one manifest for each default platform, in the order
    of [DefaultPlatforms], each under the media type of a manifest. *)
Theorem containerize_layout Fingerprint SHA256 LayerFromFile goLayerBuilder
    cfg w w' :
  containerize Fingerprint SHA256 LayerFromFile goLayerBuilder cfg w = (w', None) →
  let hsh := hash Fingerprint cfg w in
  os.ReadFile (below [hsh; "oci"; "oci-layout"]) w' = Some (Text ociLayout) ∧
  ∃ index,
    os.ReadFile (below [hsh; "oci"; "index.json"]) w' = Some (JSONIndex index) ∧
    v1.iSchemaVersion index = 2%Z ∧
    v1.iMediaType index = types.OCIImageIndex ∧
    v1.Platform_ <$> v1.iManifests index = Some <$> DefaultPlatforms ∧
    Forall (fun d => v1.MediaType d = types.OCIManifestSchema1)
           (v1.iManifests index).
Proof.
  intros H hsh. split.
  - pose proof (containerize_steps Fingerprint SHA256 LayerFromFile
                  goLayerBuilder cfg w) as (_ & _ & _ & Hl & _).
    cbn zeta in Hl. fold hsh in Hl. rewrite <- Hl.
    pose proof (containerize_file_after_layout Fingerprint SHA256 LayerFromFile
                  goLayerBuilder cfg w (elems (below [hsh; "oci"; "oci-layout"])))
      as Hf.
    cbn zeta in Hf. rewrite H in Hf. cbn [fst snd] in Hf. fold hsh in Hf.
    apply Hf.
    + apply untouched_layout.
    + intros _. apply layout_is_not_index.
  - destruct (containerize_ok _ _ _ _ _ _ _ H)
      as (w2 & w3 & w4 & dataDesc & dataLayer & imageDescs & _ & _ & Hi & Hr).
    destruct (images_spec _ _ _ _ _ _ _ _ _ _ _ Hi) as (new & -> & HF).
    destruct (newImage_descs _ _ _ _ _ _ _ _ HF) as [Hp Hm].
    eexists. split; [exact Hr|].
    cbn [v1.iSchemaVersion v1.iMediaType v1.iManifests app]. by split_and!.
Qed.

Lemma containerize_layout_witness :
  let cfg := mkBuildConfig Background sample.f 1700000000 false "" in
  let r := containerize sample.Fingerprint sample.SHA256 sample.LayerFromFile
                        sample.goLayerBuilder cfg sample.fresh in
  os.ReadFile (Builds ["abc"; "oci"; "oci-layout"]) r.1 = Some (Text ociLayout) ∧
  ∃ index,
    os.ReadFile (Builds ["abc"; "oci"; "index.json"]) r.1 = Some (JSONIndex index) ∧
    v1.Platform_ <$> v1.iManifests index = Some <$> DefaultPlatforms.
Proof.
  intros cfg r.
  destruct (containerize_layout sample.Fingerprint sample.SHA256
              sample.LayerFromFile sample.goLayerBuilder cfg sample.fresh r.1)
    as (Hl & index & Hi & _ & _ & Hp & _).
  - vm_compute. reflexivity.
  - split; [exact Hl|]. exists index. split; [exact Hi|exact Hp].
Defined.

(** ** A whole build *)

Section BuildFrame.

Variable Fingerprint : fn.Function → list node → string * option error.
Variable Getpid : Z.
Variable SHA256 : file → v1.Hash * Z.
Variable LayerFromFile : file → error + v1.Layer.
Variable goLayerBuilder : languageLayerBuilder.
Variable NewRepository : option error.
Variable signature : string → string → string → error + string.
Variable fsStat : string → option error.
Variable CopyFromFS : string → string → option error.
Variable now : Z.

Local Abbreviation hash' := (hash Fingerprint).
Local Abbreviation buildDir' := (buildDir Fingerprint).
Local Abbreviation setup' := (setup Fingerprint Getpid).
Local Abbreviation teardown' := (teardown Getpid).
Local Abbreviation containerize' :=
  (containerize Fingerprint SHA256 LayerFromFile goLayerBuilder).
Local Abbreviation build' :=
  (build Fingerprint SHA256 LayerFromFile goLayerBuilder NewRepository
         signature fsStat CopyFromFS).
Local Abbreviation Build' :=
  (Build Fingerprint Getpid SHA256 LayerFromFile goLayerBuilder NewRepository
         signature fsStat CopyFromFS now).

Lemma buildDir_hash cfg w :
  hash' cfg w ≠ ""%string → buildDir' cfg w = Builds [hash' cfg w].
Proof. intros Hh. unfold buildDir. by rewrite below_hash, nonempty_ne. Qed.

Lemma setup_ok_spec cfg w w1 :
  setup' cfg w = (w1, None) →
  isActive cfg (buildDir' cfg w) w = false ∧
  by_pid w !! strconv.Itoa Getpid = None ∧
  w1 = set_by_pid (insert (strconv.Itoa Getpid) (elems (buildDir' cfg w)))
         (os.MkdirAll (buildDir' cfg w) w).
Proof.
  intros H. pose proof (setup_cases Fingerprint Getpid cfg w) as Hc.
  cbn zeta in Hc. destruct (isActive _ _ _); [congruence|].
  destruct (by_pid w !! strconv.Itoa Getpid); [congruence|].
  split_and!; [done|done|congruence].
Qed.

(** [setup] leaves the other markers and the other directories as they
    are, whatever it returns. *)
Lemma setup_others cfg w :
  let r := setup' cfg w in
  (∀ name, name ≠ strconv.Itoa Getpid → by_pid r.1 !! name = by_pid w !! name) ∧
  (∀ d, [d] ≠ elems (buildDir' cfg w) → by_hash r.1 !! d = by_hash w !! d).
Proof.
  cbn zeta. pose proof (setup_cases Fingerprint Getpid cfg w) as Hc.
  cbn zeta in Hc.
  destruct (MkdirAll_buildDir Fingerprint cfg w) as ((Hp & _) & _ & _ & _ & _ & Hd).
  cbn zeta in Hp, Hd.
  destruct (isActive _ _ _); [by rewrite Hc|].
  destruct (by_pid w !! strconv.Itoa Getpid); rewrite Hc; cbn [fst].
  - split; [by rewrite Hp|done].
  - split; [|done]. intros name Hn. cbn [by_pid set_by_pid].
    by rewrite lookup_insert_ne, Hp.
Qed.

Lemma build_entry cfg w d :
  hash' cfg w ≠ ""%string → d ≠ hash' cfg w →
  by_hash (build' cfg w).1 !! d = by_hash w !! d.
Proof.
  intros Hh Hd. unfold build. destruct NewRepository; [done|].
  destruct (scaffold _ _ _ _ _ _); [done|].
  pose proof (containerize_entry Fingerprint SHA256 LayerFromFile goLayerBuilder
                cfg w d Hh Hd) as Hc.
  destruct (containerize' cfg w) as [w1 [err|]]; cbn [fst] in *; [done|].
  by rewrite updateLastLink_spec.
Qed.

(** The marker and the directory of another live build through a whole
    [Build]. *)
Lemma Build_other b ctx f w name hA :
  let cfg := mkBuildConfig ctx f now (verbose b) "" in
  let r := Build' b ctx f w in
  hash' cfg w ≠ ""%string → hA ≠ hash' cfg w →
  name ≠ strconv.Itoa Getpid →
  liveMarker w name [hA] →
  liveMarker r.1 name [hA] ∧ by_hash r.1 !! hA = by_hash w !! hA.
Proof.
  intros cfg r Hh HA Hn [Hm Hpe].
  pose proof (setup_others cfg w) as [So1 So2]. cbn zeta in So1, So2.
  pose proof (setup_links Fingerprint Getpid cfg w) as (_ & Sa & Ss & _).
  cbn zeta in Sa, Ss.
  assert (HdA : [hA] ≠ elems (buildDir' cfg w)).
  { rewrite buildDir_hash by done. cbn [elems]. congruence. }
  destruct (setup' cfg w) as [w1 [err|]] eqn:E; cbn [fst] in So1, So2, Sa, Ss.
  { unfold r. rewrite (Build_setup_fails _ _ _ _ _ _ _ _ _ _ _ _ _ _ _ _ E).
    cbn [fst]. split; [split|].
    - by rewrite So1.
    - by rewrite (processExists_alive name w w1 Sa).
    - by apply So2. }
  unfold r. rewrite (Build_setup_ok _ _ _ _ _ _ _ _ _ _ _ _ _ _ _ E).
  cbn [fst]. fold cfg.
  destruct (build_links Fingerprint SHA256 LayerFromFile goLayerBuilder
              NewRepository signature fsStat CopyFromFS cfg w1) as (Bp & Ba & Bs & _).
  cbn zeta in Bp, Ba, Bs.
  assert (Hh1 : hash' cfg w1 = hash' cfg w) by by apply hash_source.
  pose proof (build_entry cfg w1 hA) as Be. rewrite Hh1 in Be.
  specialize (Be Hh HA).
  set (wb := (build' cfg w1).1) in *.
  destruct (teardown_spec Getpid cfg wb) as (_ & _ & Ta & _ & _ & Tp & Tk & _).
  cbn zeta in Ta, Tp, Tk.
  assert (Hpeb : processExists name wb = true).
  { rewrite (processExists_alive name w wb); [done|congruence]. }
  assert (Hlive : liveMarker (teardown' cfg wb).1 name [hA]).
  { split.
    - rewrite Tp, decide_False, Hpeb by done. by rewrite Bp, So1.
    - rewrite (processExists_alive name wb); [done|congruence]. }
  split; [done|]. rewrite Tk by (right; by exists name).
  rewrite Be. by apply So2.
Qed.

(** The world after a build that succeeded. *)
Lemma Build_ok_index b ctx f w w' :
  let cfg := mkBuildConfig ctx f now (verbose b) "" in
  let hsh := hash' cfg w in
  Build' b ctx f w = (w', None) →
  hsh ≠ ""%string →
  last w' = Some [hsh] ∧ source w' = source w ∧
  by_pid w' !! strconv.Itoa Getpid = None ∧
  os.dir_exists w' [hsh] = true ∧
  (∀ d, is_Some (by_hash w' !! d) → kept w' d) ∧
  ∃ index,
    os.ReadFile (Builds [hsh; "oci"; "index.json"]) w' = Some (JSONIndex index) ∧
    v1.Platform_ <$> v1.iManifests index = Some <$> DefaultPlatforms.
Proof.
  intros cfg hsh HB Hh.
  apply Build_ok in HB as (w1 & wc & Hs & Hsrc1 & Hc & ->). fold cfg in Hs, Hc |- *.
  rewrite (buildDir_hash cfg w Hh). cbn [elems]. fold hsh.
  set (wl := set_last (Some [hsh]) wc).
  destruct (teardown_spec Getpid cfg wl) as (_ & Tl & _ & _ & Ts & Tp & Tk & Tn).
  cbn zeta in Tl, Ts, Tp, Tk, Tn.
  set (w' := (teardown' cfg wl).1) in *.
  assert (Hsrcc : source wc = source w1).
  { pose proof (containerize_source Fingerprint SHA256 LayerFromFile
                  goLayerBuilder cfg w1) as Hx. by rewrite Hc in Hx. }
  assert (Hh1 : hash' cfg w1 = hsh) by by apply hash_source.
  destruct (containerize_ok _ _ _ _ _ _ _ Hc)
    as (w2 & w3 & w4 & dataDesc & dataLayer & imageDescs & _ & _ & Hi & Hr).
  rewrite Hh1, (below_cons_hash hsh) in Hr by done.
  change (elems (below ["oci"; "index.json"])) with ["oci"; "index.json"] in Hr.
  destruct (images_spec _ _ _ _ _ _ _ _ _ _ _ Hi) as (new & -> & HF).
  destruct (newImage_descs _ _ _ _ _ _ _ _ HF) as [Hp _]. cbn [app] in Hr.
  assert (Hl : last w' = Some [hsh]) by by rewrite Tl.
  assert (Hk : by_hash w' !! hsh = by_hash wc !! hsh).
  { rewrite Tk; [done|]. by left. }
  assert (Hread : os.ReadFile (Builds [hsh; "oci"; "index.json"]) w'
                  = Some (JSONIndex (v1.mkIndexManifest 2 types.OCIImageIndex new))).
  { rewrite <- Hr. by apply ReadFile_entry. }
  split_and!.
  - done.
  - rewrite Ts. cbn. congruence.
  - rewrite Tp. by rewrite decide_True.
  - apply dir_exists_entry. by eapply ReadFile_Some_entry.
  - intros d Hd. destruct (kept_dec w' d) as [K|K]; [done|].
    rewrite (Tn d K) in Hd. by destruct Hd.
  - eexists. split; [exact Hread|]. exact Hp.
Qed.

End BuildFrame.



(** X12.  Builds of different versions do not disturb each other: the
    marker of another live process and the build directory it points at,
    of a hash other than the one being built, are after [Build] as they
    were before it, whether [Build] succeeded, failed or was refused. *)
Theorem build_leaves_other_builds_alone Fingerprint pid SHA256 LayerFromFile
    goLayerBuilder NewRepository signature fsStat CopyFromFS now b ctx f w
    name hA :
  let cfg := mkBuildConfig ctx f now (verbose b) "" in
  let r :=
    Build Fingerprint pid SHA256 LayerFromFile goLayerBuilder NewRepository
          signature fsStat CopyFromFS now b ctx f w in
  hash Fingerprint cfg w ≠ ""%string →
  hA ≠ hash Fingerprint cfg w →
  name ≠ strconv.Itoa pid →
  liveMarker w name [hA] →
  liveMarker r.1 name [hA] ∧ by_hash r.1 !! hA = by_hash w !! hA.
Proof.
  intros cfg r Hh HA Hn Hl.
  by apply (Build_other Fingerprint pid SHA256 LayerFromFile goLayerBuilder
              NewRepository signature fsStat CopyFromFS now b ctx f w name hA).
Qed.

Lemma build_leaves_other_builds_alone_witness :
  let r :=
    Build (fun _ _ => ("def"%string, None)) 200 sample.SHA256 sample.LayerFromFile
          sample.goLayerBuilder None sample.signature sample.fsStat
          sample.CopyFromFS 1700000000 sample.b Background sample.f
          sample.building in
  liveMarker r.1 "100" ["abc"] ∧ by_hash r.1 !! "abc" = Some ∅.
Proof.
  intros r.
  destruct (build_leaves_other_builds_alone (fun _ _ => ("def"%string, None)) 200
              sample.SHA256 sample.LayerFromFile sample.goLayerBuilder None
              sample.signature sample.fsStat sample.CopyFromFS 1700000000
              sample.b Background sample.f sample.building "100" "abc")
    as [H1 H2].
  - vm_compute. discriminate.
  - discriminate.
  - vm_compute. discriminate.
  - split; vm_compute; reflexivity.
  - split; [exact H1|]. etrans; [exact H2|]. vm_compute. reflexivity.
Defined.



(** X14.  [setup] does not undo what it did when making the marker fails:
    with a marker of the process's own name in the way, and no build of
    the hash in progress, [Build] returns an error, and the build
    directory that [setup] made before trying the link stays, empty if it
    was not there; no [teardown] runs, so that everything else is as
    before. *)
Theorem setup_link_error_keeps_directory Fingerprint pid SHA256 LayerFromFile
    goLayerBuilder NewRepository signature fsStat CopyFromFS now b ctx f w :
  let cfg := mkBuildConfig ctx f now (verbose b) "" in
  let hsh := hash Fingerprint cfg w in
  let r :=
    Build Fingerprint pid SHA256 LayerFromFile goLayerBuilder NewRepository
          signature fsStat CopyFromFS now b ctx f w in
  is_Some (by_pid w !! strconv.Itoa pid) →
  isActive cfg (buildDir Fingerprint cfg w) w = false →
  hsh ≠ ""%string →
  r.2 ≠ None ∧
  by_hash r.1 !! hsh = Some (default ∅ (by_hash w !! hsh)) ∧
  (∀ d, d ≠ hsh → by_hash r.1 !! d = by_hash w !! d) ∧
  by_pid r.1 = by_pid w ∧ last r.1 = last w ∧ cwd r.1 = cwd w.
Proof.
  intros cfg hsh r [p Hown] Hact Hh.
  pose proof (setup_cases Fingerprint pid cfg w) as Hc. cbn zeta in Hc.
  rewrite Hact, Hown in Hc.
  unfold r. rewrite (Build_setup_fails _ _ _ _ _ _ _ _ _ _ _ _ _ _ _ _ Hc).
  cbn [fst snd].
  rewrite (buildDir_hash Fingerprint cfg w Hh). fold hsh.
  split_and!; try done.
  - unfold os.MkdirAll. destruct (by_hash w !! hsh) eqn:E; [by rewrite E|].
    cbn [by_hash set_by_hash default]. by rewrite lookup_insert_eq.
  - intros d Hd. by apply MkdirAll_entry_ne.
  - by destruct (MkdirAll_links (Builds [hsh]) w) as (? & _).
  - by destruct (MkdirAll_links (Builds [hsh]) w) as (_ & ? & _).
  - apply MkdirAll_cwd.
Qed.

Lemma setup_link_error_keeps_directory_witness :
  let r :=
    Build sample.Fingerprint 200 sample.SHA256 sample.LayerFromFile
          sample.goLayerBuilder None sample.signature sample.fsStat
          sample.CopyFromFS 1700000000 sample.b Background sample.f
          sample.marked in
  r.2 ≠ None ∧ by_hash r.1 !! "abc" = Some ∅ ∧ by_pid r.1 = by_pid sample.marked.
Proof.
  intros r.
  destruct (setup_link_error_keeps_directory sample.Fingerprint 200 sample.SHA256
              sample.LayerFromFile sample.goLayerBuilder None sample.signature
              sample.fsStat sample.CopyFromFS 1700000000 sample.b Background
              sample.f sample.marked) as (H1 & H2 & _ & H3 & _).
  - vm_compute. by eexists.
  - vm_compute. reflexivity.
  - vm_compute. discriminate.
  - split_and!; [exact H1| |exact H3]. etrans; [exact H2|].
    vm_compute. reflexivity.
Defined.

(** X15.  An error of the detection of the signature is not an error of
    [scaffolding.Write]: it returns nil without looking for the
    scaffolding, so that [Build] goes on as if the scaffolding had been
    written, whatever the embedded filesystem holds. *)
Theorem signature_error_skips_scaffolding Fingerprint pid SHA256 LayerFromFile
    goLayerBuilder NewRepository signature fsStat CopyFromFS now b ctx func w
    err :
  signature (fn.Root func) (fn.Runtime func) (fn.Invoke func) = inl err →
  (∀ out, Write signature fsStat CopyFromFS out (fn.Root func)
                (fn.Runtime func) (fn.Invoke func) = None) ∧
  ∀ fsStat' CopyFromFS',
    Build Fingerprint pid SHA256 LayerFromFile goLayerBuilder NewRepository
          signature fsStat CopyFromFS now b ctx func w
    = Build Fingerprint pid SHA256 LayerFromFile goLayerBuilder NewRepository
            signature fsStat' CopyFromFS' now b ctx func w.
Proof.
  intros Hs. split.
  - intros out. unfold Write. by rewrite Hs.
  - intros fsStat' CopyFromFS'. unfold Build, build, scaffold, Write.
    cbn [f]. by rewrite Hs.
Qed.

Lemma signature_error_skips_scaffolding_witness :
  let unknown : string → string → string → error + string :=
    fun _ _ _ => inl (errorString "unable to detect signature") in
  let missing : string → option error :=
    fun _ => Some (errorString "file does not exist") in
  (Build sample.Fingerprint 200 sample.SHA256 sample.LayerFromFile
         sample.goLayerBuilder None unknown missing sample.CopyFromFS
         1700000000 sample.b Background sample.f sample.fresh).2 = None.
Proof.
  intros unknown missing.
  destruct (signature_error_skips_scaffolding sample.Fingerprint 200 sample.SHA256
              sample.LayerFromFile sample.goLayerBuilder None unknown missing
              sample.CopyFromFS 1700000000 sample.b Background sample.f
              sample.fresh (errorString "unable to detect signature") eq_refl)
    as [_ H].
  rewrite (H sample.fsStat sample.CopyFromFS). vm_compute. reflexivity.
Defined.

(** ** The pusher, once more *)



(** X17.  The results of [Push]: an error always comes with the empty
    digest; the registry is written to only once the image name has parsed
    and the index of the last build has been read, and then with that
    index; and a digest that is returned is the digest of that index, the
    algorithm and the hexadecimal value joined by a colon. *)
Theorem push_results (Registry : Type) ParseReference
    (WriteIndex : string → v1.IndexManifest → World → Registry → Registry * option string)
    IndexDigest f w r :
  let p := Push Registry ParseReference WriteIndex IndexDigest f w r in
  (p.2.2 ≠ None → p.2.1 = ""%string) ∧
  (p.1.2 ≠ r →
     ∃ ref index, ParseReference (fn.Image f) = inr ref ∧
       ImageIndexFromPath Last w = inr index ∧
       p.1.2 = (WriteIndex ref index w r).1) ∧
  (p.2.2 = None →
     ∃ ref index hh, ParseReference (fn.Image f) = inr ref ∧
       ImageIndexFromPath Last w = inr index ∧
       WriteIndex ref index w r = (p.1.2, None) ∧
       IndexDigest index = inr hh ∧
       p.2.1 = (v1.Algorithm hh ++ ":" ++ v1.Hex hh)%string).
Proof.
  unfold Push. cbn zeta.
  destruct (ParseReference (fn.Image f)) as [err|ref]; [by split_and!|].
  destruct (getLastBuildDir f w) as [dir [err|]] eqn:EL; [by split_and!|].
  assert (dir = Last) as ->.
  { unfold getLastBuildDir in EL. by destruct (os.Stat Last w) as [[]|];
      injection EL as <-. }
  destruct (ImageIndexFromPath Last w) as [err|index]; [by split_and!|].
  destruct (WriteIndex ref index w r) as [r1 [msg|]] eqn:EW.
  { split_and!; [done| |done]. intros _. exists ref, index. by rewrite EW. }
  destruct (IndexDigest index) as [err|hh] eqn:ED.
  { split_and!; [done| |done]. intros _. exists ref, index. by rewrite EW. }
  split_and!; [done| |].
  - intros _. exists ref, index. by rewrite EW.
  - intros _. by exists ref, index, hh.
Qed.
